(** * atlas-gonnect: JWT authentication and installation handshake

    A shallow embedding of the middleware package (token extraction, the
    steady-state authentication middleware, the installation handshake
    middleware with its key resolver) and of the route registration, with
    the properties of the design document stated over it.

    The JWT library (golang-jwt v3.2.2), the in-memory cache
    (patrickmn/go-cache), the HTTP client, the router (go-chi), the tenant
    store backend and the query-string-hash package are collaborators of the
    embedded code: their primitive operations are section variables or
    parameters, and the library control flow the code relies on is written
    out next to them. *)

From stdpp Require Import gmap strings list fin_maps.
From Stdlib Require Import ZArith Ascii String Lia.

Local Open Scope string_scope.
Local Open Scope Z_scope.

(** ** Dynamic values

    What an [interface{}] holds after [encoding/json] decoded into it.  The
    code only ever compares such a value with a string or asserts it to be a
    string, so composite values carry no payload. *)

Inductive iface : Type :=
| INil
| IBool (b : bool)
| IFloat64 (n : Z)
| IString (s : string)
| ISlice
| IMap.

#[global] Instance iface_eq_dec : EqDecision iface.
Proof. solve_decision. Defined.

(** [m[k]] on a Go map: the zero value (nil interface) when [k] is absent. *)
Definition index (m : gmap string iface) (k : string) : iface :=
  default INil (m !! k).

(** [v == s] for an interface value [v] and a string [s]: true exactly when
    the dynamic type is string and the contents agree. *)
Definition iface_eq_string (v : iface) (s : string) : bool :=
  match v with
  | IString t => String.eqb t s
  | _ => false
  end.

(** ** Strings *)

Fixpoint strip_prefix (p s : string) : option string :=
  match p with
  | EmptyString => Some s
  | String a p' =>
      match s with
      | EmptyString => None
      | String b s' => if Ascii.eqb a b then strip_prefix p' s' else None
      end
  end.

(** [strings.HasPrefix] and [strings.TrimPrefix]. *)
Definition HasPrefix (s p : string) : bool :=
  match strip_prefix p s with Some _ => true | None => false end.

Definition TrimPrefix (s p : string) : string :=
  default s (strip_prefix p s).

Definition is_empty (s : string) : bool := String.eqb s "".

(** ** Requests *)

(** [r.Body]: either [http.NoBody] or a readable body, given by what
    [PostFormValue] reads out of it and by what the JSON decoder leaves in a
    [map[string]interface{}] (the empty map when the body is not JSON). *)
Inductive body : Type :=
| NoBody
| ReadableBody (form : string -> string) (json : gmap string iface).

Record Request : Type := {
  Method : string;
  Path : string;
  URL_Query_Get : string -> string;   (* r.URL.Query().Get *)
  Body : body;
  Header_Get : string -> string;      (* r.Header.Get *)
}.

Definition PostFormValue (r : Request) (k : string) : string :=
  match Body r with
  | NoBody => ""
  | ReadableBody form _ => form k
  end.

Definition is_NoBody (r : Request) : bool :=
  match Body r with NoBody => true | ReadableBody _ _ => false end.

Definition JWT_PARAM : string := "jwt".
Definition AUTH_HEADER : string := "authorization".

Definition ExtractJwt (r : Request) : string * bool :=
  let tokenInQuery := URL_Query_Get r JWT_PARAM in
  if is_empty tokenInQuery && is_NoBody r then ("", false)
  else
    let tokenInBody := PostFormValue r JWT_PARAM in
    if negb (is_empty tokenInQuery) && negb (is_empty tokenInBody) then ("", false)
    else
      let token := if negb (is_empty tokenInBody) then tokenInBody else tokenInQuery in
      let authHeader := Header_Get r AUTH_HEADER in
      let token :=
        if negb (is_empty authHeader) && HasPrefix authHeader "JWT " then
          if negb (is_empty token) then token
          else TrimPrefix authHeader "JWT "
        else token in
      if is_empty token then ("", false) else (token, true).

(** ** Effects of a handler

    A handler acts on the [http.ResponseWriter], on the log and on the
    handler it wraps.  Its run is the list of these actions, in order; a run
    ends either by returning or by a Go run-time panic. *)

Inductive level : Type := Warn | Error.

Inductive event : Type :=
| EvWriteHeader (code : Z)             (* w.WriteHeader(code) *)
| EvWrite (data : string)              (* w.Write(data) *)
| EvHeaderSet (k v : string)           (* w.Header().Set(k, v) *)
| EvHeaderAdd (k v : string)           (* w.Header().Add(k, v) *)
| EvLog (l : level) (format : string)  (* log.WarnF / log.ErrorRDF *)
| EvNext (ctx : list (string * string)). (* next.ServeHTTP(w, r), with the values put in r's context *)

#[global] Instance level_eq_dec : EqDecision level.
Proof. solve_decision. Defined.

#[global] Instance event_eq_dec : EqDecision event.
Proof. solve_decision. Defined.

(** A computation: the actions performed, and the value returned, [None]
    when the computation panicked. *)
Definition M (A : Type) : Type := (list event * option A)%type.

#[global] Instance M_ret : MRet M := fun A a => ([], Some a).

#[global] Instance M_bind : MBind M := fun A B f m =>
  match m with
  | (t, None) => (t, None)
  | (t, Some a) => let '(t', b) := f a in (app t t', b)
  end.

Definition emit (e : event) : M unit := ([e], Some tt).
Definition panic {A : Type} : M A := ([], None).
Definition lift {A : Type} (o : option A) : M A := ([], o).

Definition trace {A : Type} (m : M A) : list event := fst m.
Definition panicked {A : Type} (m : M A) : bool :=
  match snd m with None => true | Some _ => false end.

(** [x.(string)], the type assertion without comma-ok: panics unless [x]
    holds a string. *)
Definition assert_string (v : iface) : M string :=
  match v with
  | IString s => mret s
  | _ => panic
  end.

(** [x.(string)] with comma-ok. *)
Definition as_string (v : iface) : string * bool :=
  match v with
  | IString s => (s, true)
  | _ => ("", false)
  end.

(** util.SendError *)
Definition SendError (errorCode : Z) (message : string) : M unit :=
  emit (EvWriteHeader errorCode);;
  emit (EvWrite message);;
  emit (EvLog Error message).

(** What the client sees.  The status line goes out with the first
    [WriteHeader], or as 200 with the first [Write]; later [WriteHeader]
    calls are ignored by net/http. *)
Fixpoint response_status (t : list event) : option Z :=
  match t with
  | [] => None
  | EvWriteHeader c :: _ => Some c
  | EvWrite _ :: _ => Some 200
  | _ :: t' => response_status t'
  end.

(** The messages written to the response body, in order. *)
Definition written (t : list event) : list string :=
  omap (fun e => match e with EvWrite d => Some d | _ => None end) t.

Definition is_next (e : event) : bool :=
  match e with EvNext _ => true | _ => false end.

(** Whether the wrapped handler was invoked. *)
Definition forwarded (t : list event) : bool := existsb is_next t.

(** The response headers as sent: those set before the status line. *)
Fixpoint sent_headers (t : list event) : list (string * string) :=
  match t with
  | [] => []
  | EvWriteHeader _ :: _ => []
  | EvWrite _ :: _ => []
  | EvHeaderSet k v :: t' => (k, v) :: sent_headers t'
  | EvHeaderAdd k v :: t' => (k, v) :: sent_headers t'
  | _ :: t' => sent_headers t'
  end.

(** ** Tenants and the add-on *)

Record Tenant : Type := {
  ClientKey : string;
  BaseURL : string;
  SharedSecret : string;
  Context : string;        (* tenant.Context.String() *)
  AddonInstalled : bool;
}.

Record Addon : Type := {
  Key : string;                           (* *addon.Key *)
  Config_BaseUrl : string;
  Config_SignedInstall : bool;
  Store_Get : string -> Tenant + string;  (* addon.Store.Get: the tenant or the error *)
}.

(** ** The JWT library *)

Inductive family : Type := HMAC | RSA | OtherFamily.

#[global] Instance family_eq_dec : EqDecision family.
Proof. solve_decision. Defined.

Record SigningMethod : Type := { Family : family; Alg : string }.

#[global] Instance SigningMethod_eq_dec : EqDecision SigningMethod.
Proof. solve_decision. Defined.

Definition SigningMethodHS256 : SigningMethod := {| Family := HMAC; Alg := "HS256" |}.
Definition SigningMethodRS256 : SigningMethod := {| Family := RSA; Alg := "RS256" |}.

Record Token : Type := {
  Header : gmap string iface;
  Claims : option (gmap string iface);   (* [None]: the Claims interface is nil *)
  TMethod : option SigningMethod;        (* [None]: the Method interface is nil *)
}.

(** The outcome of the library's signature-less parse: a nil token (the
    string does not have three segments), a token returned with an error, or
    a token returned without one. *)
Inductive parsed : Type :=
| ParseNil
| ParseErr (t : Token) (err : string)
| ParseOk (t : Token).

Inductive key : Type :=
| KBytes (b : string)
| KRSAPublic (pem : string).

Record StandardClaims : Type := {
  Issuer : string;
  Audience : string;
  Subject : string;
}.

(** ** The fallback cache (patrickmn/go-cache)

    Times are nanoseconds since the epoch, as [time.Now().UnixNano()]. *)

Record Item : Type := { Object : string; Expiration : Z }.

Definition hour : Z := 3600 * 1000000000.

(** [cache.New(4*time.Hour, 1*time.Hour)]: the default expiration. *)
Definition defaultExpiration : Z := 4 * hour.

(** [cache.DefaultExpiration] *)
Definition DefaultExpiration : Z := 0.

Definition expired (now : Z) (it : Item) : bool :=
  (0 <? Expiration it) && (Expiration it <? now).

(** [c.Get(k)]: an entry past its expiration is not found. *)
Definition cache_Get (now : Z) (c : gmap string Item) (k : string) : option string :=
  match c !! k with
  | Some it => if expired now it then None else Some (Object it)
  | None => None
  end.

(** [c.Add(k, x, d)]: stores only when [Get] finds nothing under [k]. *)
Definition cache_Add (now : Z) (c : gmap string Item) (k x : string) (d : Z)
  : gmap string Item :=
  match cache_Get now c k with
  | Some _ => c
  | None =>
      let d := if d =? DefaultExpiration then defaultExpiration else d in
      let e := if 0 <? d then now + d else 0 in
      <[k := {| Object := x; Expiration := e |}]> c
  end.

(** The outcome of [http.Get]: a transport error, or a response with its
    status code and the outcome of reading its body. *)
Inductive HttpResult : Type :=
| TransportError (err : string)
| Response (StatusCode : Z) (ResponseBody : string + string).

(** Computations of the installation path: they read and write the fallback
    cache, and may panic ([None]). *)
Definition K (A : Type) : Type :=
  gmap string Item -> (option A * gmap string Item)%type.

#[global] Instance K_ret : MRet K := fun A a c => (Some a, c).

#[global] Instance K_bind : MBind K := fun A B f m c =>
  match m c with
  | (None, c') => (None, c')
  | (Some a, c') => f a c'
  end.

Definition K_lift {A : Type} (o : option A) : K A := fun c => (o, c).

Definition CONNECT_INSTALL_KEYS_CDN_URL : string :=
  "https://connect-install-keys.atlassian.com".

Section Middleware.

(** *** Collaborators *)

(** golang-jwt: the parse of a token string without its signature check
    ([Parser.ParseUnverified]), the signature check of a signing method,
    the validity of the time claims, the audience check, PEM decoding, and
    signing. *)
Variable ParseUnverified : string -> parsed.
Variable Method_Verify : SigningMethod -> string -> key -> bool.
Variable Claims_Valid : gmap string iface -> bool.
Variable VerifyAudience : gmap string iface -> string -> bool.
Variable ParseRSAPublicKeyFromPEM : string -> key + string.
Variable SignedString : SigningMethod -> StandardClaims -> string -> string + string.

(** atlas-jwt: [CreateQueryStringHash(r, checkBodyForParams, baseUrl)]. *)
Variable CreateQueryStringHash : Request -> bool -> string -> string.

(** net/http, path: [http.Get] of the URL with the given base and path,
    and [path.Join]. *)
Variable http_Get : string -> string -> HttpResult.
Variable path_Join : string -> string -> string.

(** The clock. *)
Variable now : Z.

(** [jwt.Parse(tokenStr, keyFunc)], after the library: parse without the
    signature; without a key function stop there with an error; otherwise
    ask the key function for the key, validate the claims and verify the
    signature.  The result is the token pointer ([None] is nil) and the
    error ([None] is nil). *)
Definition Parse (tokenStr : string) (keyFunc : option (Token -> key + string))
  : M (option Token * option string) :=
  match ParseUnverified tokenStr with
  | ParseNil => mret (None, Some "token contains an invalid number of segments")
  | ParseErr t err => mret (Some t, Some err)
  | ParseOk t =>
      match keyFunc with
      | None => mret (Some t, Some "no Keyfunc was provided.")
      | Some kf =>
          match kf t with
          | inr err => mret (Some t, Some err)
          | inl k =>
              claims ← lift (Claims t);
              method ← lift (TMethod t);
              if Claims_Valid claims && Method_Verify method tokenStr k
              then mret (Some t, None)
              else mret (Some t, Some "token is invalid")
          end
      end
  end.

(** *** Authentication middleware *)

Definition extractUnverifiedClaims (tokenStr : string)
    (validator : option (Token -> key + string))
  : M (gmap string iface * bool) :=
  '(token, _) ← Parse tokenStr validator;
  match token with
  | None => mret (∅, false)
  | Some token =>
      match Claims token with
      | Some claims => mret (claims, true)
      | None => emit (EvLog Error "Invalid JWT Token");; mret (∅, false)
      end
  end.

Definition ValidateQshFromRequest (claims : gmap string iface) (r : Request)
    (addon : Addon) (skipQsh : bool) : bool :=
  if negb skipQsh && negb (iface_eq_string (index claims "qsh") "") then
    let expectedHash := CreateQueryStringHash r false (Config_BaseUrl addon) in
    if negb (iface_eq_string (index claims "qsh") expectedHash) then
      let expectedHash := CreateQueryStringHash r true (Config_BaseUrl addon) in
      if negb (iface_eq_string (index claims "qsh") expectedHash) then false
      else true
    else true
  else true.

Record AuthenticationMiddleware : Type := {
  addon : Addon;
  skipQsh : bool;
}.

(** The key function of the verified parse. *)
Definition keyFunc (secret : string) (token : Token) : key + string :=
  let alg := index (Header token) "alg" in
  if iface_eq_string alg "none" then inr "alg is none, discard"
  else if iface_eq_string alg "HS256" then
    match TMethod token with
    | Some {| Family := HMAC |} => inl (KBytes secret)
    | _ => inr "expected HS256 signing method"
    end
  else if iface_eq_string alg "RS256" then
    match TMethod token with
    | Some {| Family := RSA |} => inl (KBytes secret)
    | _ => inr "expected RS256 signing method"
    end
  else inr "unexpected signing method".

(** The claims of the session token, as [createSessionToken] fills them. *)
Definition sessionClaims (h : AuthenticationMiddleware) (clientKey : string)
    (verClaims : gmap string iface) : StandardClaims :=
  let claims := {| Issuer := Key (addon h); Audience := clientKey; Subject := "" |} in
  let '(subject, ok) := as_string (index verClaims "subject") in
  if ok then {| Issuer := Issuer claims; Audience := Audience claims; Subject := subject |}
  else claims.

Definition createSessionToken (h : AuthenticationMiddleware) (clientKey : string)
    (tenant : Tenant) (verifiedToken : Token) : M (string * option string) :=
  verClaims ← lift (Claims verifiedToken);
  let claims := sessionClaims h clientKey verClaims in
  match SignedString SigningMethodHS256 claims (SharedSecret tenant) with
  | inr err => mret ("", Some err)
  | inl signedToken =>
      emit (EvHeaderSet "X-acpt" signedToken);;
      mret (signedToken, None)
  end.

(** [AuthenticationMiddleware.ServeHTTP].  The debug log lines are left
    out.  The library parses into [jwt.MapClaims], so the cast of the
    verified claims to [jwt.MapClaims] cannot fail once they are not nil,
    and its failure branch does not appear. *)
Definition AuthenticationMiddleware_ServeHTTP (h : AuthenticationMiddleware)
    (r : Request) : M unit :=
  let '(token, ok) := ExtractJwt r in
  if negb ok then SendError 401 "Could not find auth data on request"
  else
    '(unverifiedClaims, ok) ← extractUnverifiedClaims token None;
    if negb ok then
      SendError 401 "JWT claim did not contain the issuer (iss) claim"
    else if iface_eq_string (index unverifiedClaims "iss") "" then
      SendError 401 "JWT claim did not contain the issuer (iss) claim"
    else
      clientKey ← assert_string (index unverifiedClaims "iss");
      let queryStringHash := index unverifiedClaims "qsh" in
      (if iface_eq_string queryStringHash "" && negb (skipQsh h) then
         SendError 401 "JWT claim did not contain the query string hash (qsh) claim"
       else mret tt);;
      match Store_Get (addon h) clientKey with
      | inr _ => SendError 500 "Could not lookup stored client data for clientKey"
      | inl tenant =>
          let secret := SharedSecret tenant in
          if is_empty secret then
            SendError 401 "Could not find JQT sharedSecret in tenant clientKey"
          else
            '(verifiedToken, err) ← Parse token (Some (keyFunc secret));
            match err with
            | Some _ =>
                emit (EvLog Error "JWT Token verification error: %v");;
                SendError 500 "Could not verify JWT Token"
            | None =>
                verifiedToken ← lift verifiedToken;
                claims ← lift (Claims verifiedToken);
                if negb (Claims_Valid claims) then
                  SendError 500 "Could not find verify JWT Claims; Auth request has expired"
                else if negb (ValidateQshFromRequest claims r (addon h) (skipQsh h)) then
                  SendError 401 "Auth failure: Query hash mismatch"
                else
                  '(tokenString, err) ← createSessionToken h clientKey tenant verifiedToken;
                  match err with
                  | Some e => SendError 500 ("Could not create new access token " ++ e)
                  | None =>
                      let oldVerClaims := claims in
                      match Store_Get (addon h) clientKey with
                      | inr e => SendError 500 ("Could not create new access token " ++ e)
                      | inl tenant =>
                          accountID ←
                            (if bool_decide (index oldVerClaims "sub" = INil) then mret ""
                             else assert_string (index oldVerClaims "sub"));
                          let verifiedParams :=
                            [("clientKey", clientKey);
                             ("hostBaseUrl", BaseURL tenant);
                             ("token", tokenString);
                             ("userAccountId", accountID);
                             ("tenantContext", Context tenant)] in
                          emit (EvNext verifiedParams)
                      end
                  end
            end
      end.

(** *** Key resolver *)

(** [fetchKeyWithKeyId].  The parse of the constant CDN address cannot fail,
    so its error branch does not appear; the path of the address is empty,
    and the key id is joined to it. *)
Definition fetchKeyWithKeyId (keyId : string) : K (string + string) := fun c =>
  let keyCdnUrl_Path := path_Join "" keyId in
  match http_Get CONNECT_INSTALL_KEYS_CDN_URL keyCdnUrl_Path with
  | TransportError err => (Some (inr err), c)
  | Response StatusCode ResponseBody =>
      if StatusCode =? 200 then
        match ResponseBody with
        | inr err => (Some (inr err), c)
        | inl bodyString =>
            (Some (inl bodyString),
             cache_Add now c keyId bodyString DefaultExpiration)
        end
      else
        match cache_Get now c keyId with
        | None =>
            (Some (inr "Could not retrieve public Key from CDN or fallbackCache"), c)
        | Some fallbackKey => (Some (inl fallbackKey), c)
        end
  end.

(** *** Installation handshake *)

Definition isJwtAsymmetric (r : Request) : M bool :=
  let '(tokenStr, ok) := ExtractJwt r in
  if negb ok then mret ok
  else
    '(token, _) ← Parse tokenStr None;
    token ← lift token;
    mret (bool_decide (TMethod token = Some SigningMethodRS256)).

Definition decodeAsymmetric (tokenStr publicKey : string)
    (signedAlgorithm : SigningMethod) (noVerify : bool)
  : M (gmap string iface + string) :=
  '(token, _) ← Parse tokenStr None;
  token ← lift token;
  method ← lift (TMethod token);
  if negb (String.eqb (Alg method) (Alg signedAlgorithm)) then
    mret (inr "Unexpected signing method: %v")
  else
    let claims := Claims token in
    if negb noVerify then
      '(token, err) ← Parse tokenStr (Some (fun _ => ParseRSAPublicKeyFromPEM publicKey));
      match err with
      | Some err => mret (inr err)
      | None =>
          token ← lift token;
          claims ← lift (Claims token);
          mret (inl claims)
      end
    else
      claims ← lift claims;
      mret (inl claims).

(** The functions below call no response writer: of an [M] computation
    they keep the returned value only. *)
Definition K_of {A : Type} (m : M A) : K A := K_lift (snd m).

Definition decodeAsymmetricToken (tokenStr : string) (noVerify : bool)
  : K (gmap string iface + string) :=
  '(token, _) ← K_of (Parse tokenStr None);
  token ← K_lift token;
  match Header token !! "kid" with
  | None => mret (inr "keyId is missing")
  | Some keyIdI =>
      let '(keyId, ok) := as_string keyIdI in
      if negb ok || is_empty keyId then mret (inr "keyId is missing")
      else
        fetched ← fetchKeyWithKeyId keyId;
        match fetched with
        | inr err => mret (inr err)
        | inl publicKey =>
            K_of (decodeAsymmetric tokenStr publicKey SigningMethodRS256 noVerify)
        end
  end.

Definition verifyAsymmetricJwtAndGetClaims (addon : Addon) (r : Request)
  : K (string + string) :=
  let '(tokenStr, ok) := ExtractJwt r in
  if negb ok then mret (inr "Could not find authentication data on request")
  else
    unverified ← decodeAsymmetricToken tokenStr true;
    match unverified with
    | inr err => mret (inr err)
    | inl unverifiedClaims =>
        if iface_eq_string (index unverifiedClaims "iss") "" then
          mret (inr "JWT claim did not contain the issuer (iss) claim")
        else
          clientKey ← K_of (assert_string (index unverifiedClaims "iss"));
          if negb (VerifyAudience unverifiedClaims (Config_BaseUrl addon)) then
            mret (inr "JWT claim did not contain the correct audience (aud) claim")
          else if iface_eq_string (index unverifiedClaims "qsh") "" then
            mret (inr "JWT claim did not contain the query string hash (qsh) claim")
          else
            verified ← decodeAsymmetricToken tokenStr false;
            match verified with
            | inr err => mret (inr err)
            | inl verifiedClaims =>
                if negb (Claims_Valid verifiedClaims) then
                  mret (inr "Authentication request has expired.")
                else if negb (ValidateQshFromRequest verifiedClaims r addon false) then
                  mret (inr "Auth failure: Query hash mismatch")
                else mret (inl clientKey)
            end
    end.

(** [signedInstallMiddleware.ServeHTTP]; [next] receives the client key
    that the middleware puts in the request context. *)
Definition signedInstallMiddleware_ServeHTTP (addon : Addon)
    (next : string -> M unit) (r : Request)
  : gmap string Item -> M unit * gmap string Item := fun c =>
  match verifyAsymmetricJwtAndGetClaims addon r c with
  | (None, c') => (panic, c')
  | (Some (inr err), c') => (SendError 401 err, c')
  | (Some (inl clientKey), c') => (next clientKey, c')
  end.

(** [VerifyInstallationMiddleware.ServeHTTP] *)
Definition VerifyInstallationMiddleware_ServeHTTP (addon : Addon) (r : Request)
  : gmap string Item -> M unit * gmap string Item := fun c =>
  match Body r with
  | NoBody => (SendError 401 "No registration info provided", c)
  | ReadableBody _ responseData =>
      match responseData !! "baseUrl" with
      | None => (SendError 401 "No baseUrl provided for registration info", c)
      | Some baseUrl =>
          match responseData !! "clientKey" with
          | None => (emit (EvLog Warn "No clientKey provided for host %s"), c)
          | Some clientKey =>
              let asymmetric :=
                if Config_SignedInstall addon then isJwtAsymmetric r else mret false in
              match asymmetric with
              | (_, None) => (panic, c)
              | (_, Some true) =>
                  signedInstallMiddleware_ServeHTTP addon
                    (fun ctxClientKey =>
                       if iface_eq_string clientKey ctxClientKey then
                         emit (EvNext [("clientKey", ctxClientKey)])
                       else
                         SendError 401
                           "clientKey in install payload did not match authenticated client")
                    r c
              | (_, Some false) =>
                  ((if Config_SignedInstall addon then
                      emit (EvHeaderAdd "x-unexpected-symmetric-hook" "true")
                    else mret tt);;
                   emit (EvNext []), c)
              end
          end
      end
  end.

(** *** Token middleware *)

(** [TokenMiddleware.ServeHTTP]: the authentication middleware built with
    the query string hash skipped. *)
Definition TokenMiddleware_ServeHTTP (a : Addon) (r : Request) : M unit :=
  AuthenticationMiddleware_ServeHTTP {| addon := a; skipQsh := true |} r.

End Middleware.

(** ** Route registration *)

(** The handlers [RegisterRoutes] builds: the three of the routes package,
    handlers given by the caller, and the two middleware constructors
    applied to a handler. *)
Inductive Handler : Type :=
| AtlassianConnectHandler
| InstalledHandler
| UninstalledHandler
| CallerHandler (name : string)
| NewAuthenticationMiddleware (skipQsh : bool) (h : Handler)
| NewVerifyInstallationMiddleware (h : Handler).

#[global] Instance Handler_eq_dec : EqDecision Handler.
Proof. solve_decision. Defined.

Definition in_cutset (cutset : string) (a : ascii) : bool :=
  existsb (Ascii.eqb a) (list_ascii_of_string cutset).

Fixpoint trim_left (cutset : string) (l : list ascii) : list ascii :=
  match l with
  | [] => []
  | a :: l' => if in_cutset cutset a then trim_left cutset l' else l
  end.

(** [strings.Trim] *)
Definition Trim (s cutset : string) : string :=
  string_of_list_ascii
    (rev (trim_left cutset (rev (trim_left cutset (list_ascii_of_string s))))).

(** The cut set [" \t/"]. *)
Definition base_cutset : string :=
  String " " (String (ascii_of_nat 9) (String "/" EmptyString)).

(** The router: the patterns handled, in the order of the [Handle] calls. *)
Record Router : Type := {
  RegisteredRoutes : list string;
  mux : list (string * Handler);
}.

(** [mux.Handle(pattern, h)].  The router refuses some patterns with a
    panic (chi: a wildcard that is not the last character, a route
    parameter without its closing brace, a pattern that does not begin with
    a slash): [accepts] tells which patterns it takes.  [None] is the
    panic, and nothing is bound then. *)
Definition Handle (accepts : string -> bool) (pattern : string) (h : Handler)
    (m : list (string * Handler)) : option (list (string * Handler)) :=
  if accepts pattern then Some (app m [(pattern, h)]) else None.

(** [RegisterRoutes].  The result is the router as the function leaves it,
    and whether the function returned ([true]) or stopped at a panic of
    [Handle] ([false]): the routes are recorded before the first [Handle],
    and the bindings made before the panic stay. *)
Definition RegisterRoutes (accepts : string -> bool) (base : string)
    (enabled disabled : option Handler) (rt : Router) : Router * bool :=
  let base := Trim base base_cutset in
  let base := if is_empty base then "/" else "/" ++ base ++ "/" in
  let routes :=
    app (RegisteredRoutes rt)
        [base ++ "atlassian-connect.json"; base ++ "installed"; base ++ "uninstalled"] in
  let stopped m := ({| RegisteredRoutes := routes; mux := m |}, false) in
  let m := mux rt in
  match Handle accepts (base ++ "atlassian-connect.json") AtlassianConnectHandler m with
  | None => stopped m
  | Some m =>
      match Handle accepts (base ++ "installed")
              (NewVerifyInstallationMiddleware InstalledHandler) m with
      | None => stopped m
      | Some m =>
          match Handle accepts (base ++ "uninstalled")
                  (NewAuthenticationMiddleware false UninstalledHandler) m with
          | None => stopped m
          | Some m =>
              match (match enabled with
                     | Some enabled =>
                         Handle accepts (base ++ "enabled")
                           (NewAuthenticationMiddleware false enabled) m
                     | None => Some m
                     end) with
              | None => stopped m
              | Some m =>
                  match (match disabled with
                         | Some disabled =>
                             Handle accepts (base ++ "disabled")
                               (NewAuthenticationMiddleware false disabled) m
                         | None => Some m
                         end) with
                  | None => stopped m
                  | Some m => ({| RegisteredRoutes := routes; mux := m |}, true)
                  end
              end
          end
      end
  end.

(** The base path as [RegisterRoutes] normalises it. *)
Definition route_base (base : string) : string :=
  let base := Trim base base_cutset in
  if is_empty base then "/" else "/" ++ base ++ "/".

(** The handler a pattern is bound to: the one of the latest [Handle] call
    for it. *)
Fixpoint bound (pattern : string) (m : list (string * Handler)) : option Handler :=
  match m with
  | [] => None
  | (p, h) :: m' =>
      match bound pattern m' with
      | Some h' => Some h'
      | None => if String.eqb p pattern then Some h else None
      end
  end.

(** Whether the outermost gate of a handler is the installation handshake. *)
Definition gated_by_handshake (h : Handler) : bool :=
  match h with NewVerifyInstallationMiddleware _ => true | _ => false end.

(** ** A sample deployment

    Concrete collaborators, tenants, tokens and requests, on which the
    definitions above are run. *)

Module Sample.

Definition hs256_token (claims : gmap string iface) : Token :=
  {| Header := {[ "alg" := IString "HS256"; "typ" := IString "JWT" ]};
     Claims := Some claims;
     TMethod := Some SigningMethodHS256 |}.

Definition rs256_token (kid : string) (claims : gmap string iface) : Token :=
  {| Header := {[ "alg" := IString "RS256"; "kid" := IString kid ]};
     Claims := Some claims;
     TMethod := Some SigningMethodRS256 |}.

(** Token strings and what they decode to. *)
Definition tokens : list (string * Token) :=
  [ ("good.A.sig",
      hs256_token {[ "iss" := IString "tenantA"; "qsh" := IString "H";
                     "sub" := IString "acct-1" ]});
    ("noqsh.A.sig", hs256_token {[ "iss" := IString "tenantA" ]});
    ("emptyqsh.A.sig",
      hs256_token {[ "iss" := IString "tenantA"; "qsh" := IString "" ]});
    ("noiss.A.sig", hs256_token {[ "qsh" := IString "H" ]});
    ("emptyiss.A.sig",
      hs256_token {[ "iss" := IString ""; "qsh" := IString "H" ]});
    ("good.A.forged",
      hs256_token {[ "iss" := IString "tenantA"; "qsh" := IString "H" ]});
    ("expired.A.sig",
      hs256_token {[ "iss" := IString "tenantA"; "qsh" := IString "H";
                     "exp" := IFloat64 1 ]});
    ("otherqsh.A.sig",
      hs256_token {[ "iss" := IString "tenantA"; "qsh" := IString "G" ]});
    ("good.C.sig",
      hs256_token {[ "iss" := IString "tenantC"; "qsh" := IString "H" ]});
    ("good.Z.sig",
      hs256_token {[ "iss" := IString "tenantZ" ]});
    ("install.B.sig",
      rs256_token "k1" {[ "iss" := IString "tenantB"; "qsh" := IString "H";
                          "aud" := IString "https://addon.example" ]}) ].

Fixpoint assoc {A : Type} (k : string) (l : list (string * A)) : option A :=
  match l with
  | [] => None
  | (k', a) :: l' => if String.eqb k k' then Some a else assoc k l'
  end.

Definition ParseUnverified (s : string) : parsed :=
  match assoc s tokens with
  | Some t => ParseOk t
  | None => ParseNil
  end.

(** HMAC signatures ending in [.sig] are those made with ["secretA"];
    the RSA signature of the install token is made with the key ["PEM k1"]. *)
Definition Method_Verify (m : SigningMethod) (tokenStr : string) (k : key) : bool :=
  match Family m, k with
  | HMAC, KBytes b =>
      String.eqb b "secretA" && negb (String.eqb tokenStr "good.A.forged")
  | RSA, KRSAPublic pem => String.eqb pem "PEM k1"
  | _, _ => false
  end.

Definition Claims_Valid (claims : gmap string iface) : bool :=
  match claims !! "exp" with
  | Some (IFloat64 n) => 1000 <=? n
  | _ => true
  end.

Definition VerifyAudience (claims : gmap string iface) (cmp : string) : bool :=
  iface_eq_string (index claims "aud") cmp.

Definition ParseRSAPublicKeyFromPEM (pem : string) : key + string :=
  if HasPrefix pem "PEM " then inl (KRSAPublic pem) else inr "invalid key".

Definition SignedString (m : SigningMethod) (c : StandardClaims) (secret : string)
  : string + string :=
  inl (Alg m ++ ":" ++ Issuer c ++ ":" ++ Audience c ++ ":" ++ Subject c
       ++ ":" ++ secret).

Definition CreateQueryStringHash (r : Request) (checkBody : bool) (baseUrl : string)
  : string := "H".

Definition path_Join (a b : string) : string := a ++ b.

Definition now : Z := 10 * hour.

Definition tenantA : Tenant :=
  {| ClientKey := "tenantA"; BaseURL := "https://a.example";
     SharedSecret := "secretA"; Context := "{}"; AddonInstalled := true |}.

Definition tenantC : Tenant :=
  {| ClientKey := "tenantC"; BaseURL := "https://c.example";
     SharedSecret := ""; Context := "{}"; AddonInstalled := true |}.

Definition store (clientKey : string) : Tenant + string :=
  if String.eqb clientKey "tenantA" then inl tenantA
  else if String.eqb clientKey "tenantC" then inl tenantC
  else inr "record not found".

Definition the_addon (signedInstall : bool) : Addon :=
  {| Key := "my-addon"; Config_BaseUrl := "https://addon.example";
     Config_SignedInstall := signedInstall; Store_Get := store |}.

(** A GET of [/resource?x=1&jwt=<token>], without a body. *)
Definition get_with_query (token : string) : Request :=
  {| Method := "GET"; Path := "/resource";
     URL_Query_Get := fun k => if String.eqb k "jwt" then token else "";
     Body := NoBody;
     Header_Get := fun _ => "" |}.

(** A GET of [/resource?x=1] with the token in the Authorization header. *)
Definition get_with_header (token : string) : Request :=
  {| Method := "GET"; Path := "/resource";
     URL_Query_Get := fun _ => "";
     Body := NoBody;
     Header_Get := fun k => if String.eqb k "authorization" then "JWT " ++ token else "" |}.

(** A POST whose JSON body decodes to [data], with the given jwt query
    parameter, jwt form field and Authorization header. *)
Definition post (query form header : string) (data : gmap string iface) : Request :=
  {| Method := "POST"; Path := "/installed";
     URL_Query_Get := fun k => if String.eqb k "jwt" then query else "";
     Body := ReadableBody (fun k => if String.eqb k "jwt" then form else "") data;
     Header_Get := fun k => if String.eqb k "authorization" then header else "" |}.

Definition cdn_up (base path : string) : HttpResult :=
  Response 200 (inl ("PEM " ++ path)).
Definition cdn_unreachable (base path : string) : HttpResult :=
  TransportError "dial tcp: i/o timeout".
Definition cdn_down (base path : string) : HttpResult :=
  Response 503 (inl "Service Unavailable").

(** The steady-state middleware and the handshake on these collaborators. *)
Definition authenticate (skipQsh : bool) (r : Request) : M unit :=
  AuthenticationMiddleware_ServeHTTP ParseUnverified Method_Verify Claims_Valid
    SignedString CreateQueryStringHash
    {| addon := the_addon false; skipQsh := skipQsh |} r.

Definition install (http_Get : string -> string -> HttpResult) (signedInstall : bool)
    (r : Request) (c : gmap string Item) : M unit * gmap string Item :=
  VerifyInstallationMiddleware_ServeHTTP ParseUnverified Method_Verify Claims_Valid
    VerifyAudience ParseRSAPublicKeyFromPEM CreateQueryStringHash http_Get
    path_Join now (the_addon signedInstall) r c.

Definition resolve (http_Get : string -> string -> HttpResult) (keyId : string)
    (c : gmap string Item) : option (string + string) * gmap string Item :=
  fetchKeyWithKeyId http_Get path_Join now keyId c.

(** A router that takes the patterns without a wildcard and without a
    brace. *)
Definition plain (pattern : string) : bool :=
  forallb (fun a => negb (Ascii.eqb a "*" || Ascii.eqb a "{" || Ascii.eqb a "}"))
    (list_ascii_of_string pattern).

End Sample.

(** * Vocabulary of the properties *)

(** ** Key resolver *)

(** The live fetch failed: no response, or a response other than 200. *)
Definition live_fetch_failed (res : HttpResult) : bool :=
  match res with
  | TransportError _ => true
  | Response StatusCode _ => negb (StatusCode =? 200)
  end.

Definition KeyUnavailable : string :=
  "Could not retrieve public Key from CDN or fallbackCache".

(** What the fallback cache answers for a key id: the cached text of a
    fresh entry, and otherwise the failure. *)
Definition fallback (now : Z) (c : gmap string Item) (keyId : string)
  : string + string :=
  match cache_Get now c keyId with
  | Some pem => inl pem
  | None => inr KeyUnavailable
  end.

(** ** Installation handshake *)

(** The JSON body of an installation request holds [baseUrl] and has
    [clientKey] as its client key entry, if any. *)
Definition install_payload (r : Request) (baseUrl : iface) (clientKey : option iface)
  : Prop :=
  exists (form : string -> string) (data : gmap string iface),
    Body r = ReadableBody form data
    /\ data !! "baseUrl" = Some baseUrl
    /\ data !! "clientKey" = clientKey.

Definition ClientKeyMismatch : string :=
  "clientKey in install payload did not match authenticated client".

(** The signature of [tokenStr] verifies with RS256 under a key decoded
    from some PEM text, its time claims are valid, and it decodes to
    [claims]. *)
Definition verified_RS256 (ParseUnverified : string -> parsed)
    (Method_Verify : SigningMethod -> string -> key -> bool)
    (Claims_Valid : gmap string iface -> bool)
    (ParseRSAPublicKeyFromPEM : string -> key + string)
    (tokenStr : string) (claims : gmap string iface) : Prop :=
  exists (t : Token) (m : SigningMethod) (k : key) (pem : string),
    ParseUnverified tokenStr = ParseOk t
    /\ Claims t = Some claims
    /\ TMethod t = Some m
    /\ Alg m = "RS256"
    /\ ParseRSAPublicKeyFromPEM pem = inl k
    /\ Method_Verify m tokenStr k = true
    /\ Claims_Valid claims = true.

(** ** Authentication middleware *)

Definition MissingQsh : string :=
  "JWT claim did not contain the query string hash (qsh) claim".

Definition MissingIssuer : string :=
  "JWT claim did not contain the issuer (iss) claim".

Definition QshMismatch : string := "Auth failure: Query hash mismatch".

(** The failures of the steps after the issuer and query string hash
    checks: tenant lookup, shared secret, signature verification, expiry,
    query string hash, and the signing of the session token. *)
Inductive failure : Type :=
| TenantLookupFailed
| NoSharedSecret
| UnsupportedAlgorithm
| SignatureInvalid
| TokenExpired
| QshMismatchFailure
| SessionIssueFailed.

(** The status classes as the design document gives them: the failures of
    steps 5 to 8 are the caller's, tenant lookup and signing the server's. *)
Definition claimed_status (f : failure) : Z :=
  match f with
  | TenantLookupFailed | SessionIssueFailed => 500
  | NoSharedSecret | UnsupportedAlgorithm | SignatureInvalid
  | TokenExpired | QshMismatchFailure => 401
  end.

(** The status classes as the middleware reports them. *)
Definition reported_status (f : failure) : Z :=
  match f with
  | NoSharedSecret | QshMismatchFailure => 401
  | TenantLookupFailed | UnsupportedAlgorithm | SignatureInvalid
  | TokenExpired | SessionIssueFailed => 500
  end.

Section Steps.

Variable ParseUnverified : string -> parsed.
Variable Method_Verify : SigningMethod -> string -> key -> bool.
Variable Claims_Valid : gmap string iface -> bool.
Variable SignedString : SigningMethod -> StandardClaims -> string -> string + string.
Variable CreateQueryStringHash : Request -> bool -> string -> string.

(** The request carries the token [tokenStr], which decodes to the token
    [t] with claims [claims], whose issuer is the non-empty [clientKey]. *)
Definition decoded (r : Request) (tokenStr : string) (t : Token)
    (claims : gmap string iface) (clientKey : string) : Prop :=
  ExtractJwt r = (tokenStr, true)
  /\ ParseUnverified tokenStr = ParseOk t
  /\ Claims t = Some claims
  /\ index claims "iss" = IString clientKey
  /\ clientKey <> "".

(** The early report of a missing query string hash is written. *)
Definition qsh_reported (h : AuthenticationMiddleware) (claims : gmap string iface)
  : bool :=
  iface_eq_string (index claims "qsh") "" && negb (skipQsh h).

(** The step at which a decoded request fails, by the conditions on the
    tenant store, the token and the request. *)
Inductive fails_at (h : AuthenticationMiddleware) (r : Request) (tokenStr : string)
    (t : Token) (claims : gmap string iface) (clientKey : string)
  : failure -> Prop :=
| fails_lookup (e : string) :
    Store_Get (addon h) clientKey = inr e ->
    fails_at h r tokenStr t claims clientKey TenantLookupFailed
| fails_secret (tenant : Tenant) :
    Store_Get (addon h) clientKey = inl tenant ->
    SharedSecret tenant = "" ->
    fails_at h r tokenStr t claims clientKey NoSharedSecret
| fails_algorithm (tenant : Tenant) (e : string) :
    Store_Get (addon h) clientKey = inl tenant ->
    SharedSecret tenant <> "" ->
    keyFunc (SharedSecret tenant) t = inr e ->
    fails_at h r tokenStr t claims clientKey UnsupportedAlgorithm
| fails_signature (tenant : Tenant) (k : key) (m : SigningMethod) :
    Store_Get (addon h) clientKey = inl tenant ->
    SharedSecret tenant <> "" ->
    keyFunc (SharedSecret tenant) t = inl k ->
    TMethod t = Some m ->
    Method_Verify m tokenStr k = false ->
    fails_at h r tokenStr t claims clientKey SignatureInvalid
| fails_expiry (tenant : Tenant) (k : key) (m : SigningMethod) :
    Store_Get (addon h) clientKey = inl tenant ->
    SharedSecret tenant <> "" ->
    keyFunc (SharedSecret tenant) t = inl k ->
    TMethod t = Some m ->
    Claims_Valid claims = false ->
    fails_at h r tokenStr t claims clientKey TokenExpired
| fails_qsh (tenant : Tenant) (k : key) (m : SigningMethod) :
    Store_Get (addon h) clientKey = inl tenant ->
    SharedSecret tenant <> "" ->
    keyFunc (SharedSecret tenant) t = inl k ->
    TMethod t = Some m ->
    Method_Verify m tokenStr k = true ->
    Claims_Valid claims = true ->
    ValidateQshFromRequest CreateQueryStringHash claims r (addon h) (skipQsh h) = false ->
    fails_at h r tokenStr t claims clientKey QshMismatchFailure
| fails_signing (tenant : Tenant) (k : key) (m : SigningMethod) (e : string) :
    Store_Get (addon h) clientKey = inl tenant ->
    SharedSecret tenant <> "" ->
    keyFunc (SharedSecret tenant) t = inl k ->
    TMethod t = Some m ->
    Method_Verify m tokenStr k = true ->
    Claims_Valid claims = true ->
    ValidateQshFromRequest CreateQueryStringHash claims r (addon h) (skipQsh h) = true ->
    SignedString SigningMethodHS256 (sessionClaims h clientKey claims)
      (SharedSecret tenant) = inr e ->
    fails_at h r tokenStr t claims clientKey SessionIssueFailed.

(** Every step of a decoded request passes for [tenant], and the session
    token signs to [signedToken]. *)
Definition authenticated (h : AuthenticationMiddleware) (r : Request)
    (tokenStr : string) (t : Token) (claims : gmap string iface)
    (clientKey : string) (tenant : Tenant) (signedToken : string) : Prop :=
  Store_Get (addon h) clientKey = inl tenant
  /\ SharedSecret tenant <> ""
  /\ (exists (k : key) (m : SigningMethod),
        keyFunc (SharedSecret tenant) t = inl k
        /\ TMethod t = Some m
        /\ Method_Verify m tokenStr k = true)
  /\ Claims_Valid claims = true
  /\ ValidateQshFromRequest CreateQueryStringHash claims r (addon h) (skipQsh h) = true
  /\ SignedString SigningMethodHS256 (sessionClaims h clientKey claims)
       (SharedSecret tenant) = inl signedToken.

End Steps.

(** ** Route registration *)

(** The patterns that [RegisterRoutes] hands to the router. *)
Definition route_patterns (base : string) (enabled disabled : option Handler)
  : list string :=
  let b := route_base base in
  app [b ++ "atlassian-connect.json"; b ++ "installed"; b ++ "uninstalled"]
      (app (match enabled with Some _ => [b ++ "enabled"] | None => [] end)
           (match disabled with Some _ => [b ++ "disabled"] | None => [] end)).

(** * Properties *)

(** ** Strings and values *)

Lemma is_empty_true (s : string) : is_empty s = true <-> s = "".
Proof. unfold is_empty. apply String.eqb_eq. Qed.

Lemma is_empty_false (s : string) : is_empty s = false <-> s <> "".
Proof. unfold is_empty. apply String.eqb_neq. Qed.

Lemma strip_prefix_app (p s : string) : strip_prefix p (p ++ s) = Some s.
Proof.
  induction p as [|a p IH]; simpl; [reflexivity|].
  rewrite Ascii.eqb_refl. exact IH.
Qed.

Lemma HasPrefix_app (p s : string) : HasPrefix (p ++ s) p = true.
Proof. unfold HasPrefix. now rewrite strip_prefix_app. Qed.

Lemma TrimPrefix_app (p s : string) : TrimPrefix (p ++ s) p = s.
Proof. unfold TrimPrefix. now rewrite strip_prefix_app. Qed.

Lemma append_cancel_l (p s t : string) : p ++ s = p ++ t -> s = t.
Proof.
  induction p as [|a p IH]; simpl; intros H; [exact H|].
  injection H as H. auto.
Qed.

Lemma append_eqb_l (p s t : string) : String.eqb (p ++ s) (p ++ t) = String.eqb s t.
Proof.
  destruct (String.eqb_spec s t) as [->|Hne].
  - apply String.eqb_refl.
  - apply String.eqb_neq. intros H. apply Hne. eapply append_cancel_l, H.
Qed.

Lemma index_lookup (m : gmap string iface) (k : string) (v : iface) :
  m !! k = Some v -> index m k = v.
Proof. unfold index. now intros ->. Qed.

Lemma index_absent (m : gmap string iface) (k : string) :
  m !! k = None -> index m k = INil.
Proof. unfold index. now intros ->. Qed.

(** ** Token extraction *)

Lemma ExtractJwt_ok_nonempty (r : Request) (token : string) :
  ExtractJwt r = (token, true) -> token <> "".
Proof.
  unfold ExtractJwt.
  repeat match goal with
         | |- context [if ?b then _ else _] => destruct b eqn:?
         end; intros H; inversion H; subst;
    match goal with
    | E : is_empty _ = false |- _ => now apply is_empty_false in E
    end.
Qed.

(** C8, first half as stated, fails: a request without a body that carries
    its token in the Authorization header only is refused by the guard on
    the empty query parameter and the absent body. *)
Lemma ExtractJwt_header_only_without_body :
  ~ (forall (r : Request) (token : string),
        Header_Get r AUTH_HEADER = "JWT " ++ token -> token <> "" ->
        URL_Query_Get r JWT_PARAM = "" -> PostFormValue r JWT_PARAM = "" ->
        ExtractJwt r = (token, true)).
Proof.
  intros H.
  specialize (H (Sample.get_with_header "good.A.sig") "good.A.sig").
  discriminate H; [reflexivity | discriminate | reflexivity | reflexivity].
Qed.

(** C8, amended: with a readable body, a token carried by the header alone
    is extracted; a token carried by the query alone, or by the form body
    alone, is returned whatever the header holds. *)
Theorem ExtractJwt_precedence (r : Request) :
  (forall token : string,
      Header_Get r AUTH_HEADER = "JWT " ++ token -> token <> "" ->
      URL_Query_Get r JWT_PARAM = "" -> PostFormValue r JWT_PARAM = "" ->
      is_NoBody r = false ->
      ExtractJwt r = (token, true))
  /\ (forall tokenInQuery : string,
      URL_Query_Get r JWT_PARAM = tokenInQuery -> tokenInQuery <> "" ->
      PostFormValue r JWT_PARAM = "" ->
      ExtractJwt r = (tokenInQuery, true))
  /\ (forall tokenInBody : string,
      PostFormValue r JWT_PARAM = tokenInBody -> tokenInBody <> "" ->
      URL_Query_Get r JWT_PARAM = "" ->
      ExtractJwt r = (tokenInBody, true)).
Proof.
  split; [|split].
  - intros token Hh Hne Hq Hb Hbody. unfold ExtractJwt.
    rewrite Hq, Hb, Hbody, Hh. simpl. rewrite TrimPrefix_app.
    apply is_empty_false in Hne. now rewrite Hne.
  - intros q Hq Hne Hb. unfold ExtractJwt.
    rewrite Hq, Hb. apply is_empty_false in Hne. rewrite Hne. simpl.
    destruct (negb (is_empty (Header_Get r AUTH_HEADER))
              && HasPrefix (Header_Get r AUTH_HEADER) "JWT ");
      rewrite ?Hne; simpl; rewrite ?Hne; reflexivity.
  - intros b Hb Hne Hq. unfold ExtractJwt.
    assert (Hbody : is_NoBody r = false).
    { unfold PostFormValue in Hb. unfold is_NoBody.
      destruct (Body r); [congruence | reflexivity]. }
    rewrite Hq, Hb, Hbody. apply is_empty_false in Hne. rewrite Hne. simpl.
    destruct (negb (is_empty (Header_Get r AUTH_HEADER))
              && HasPrefix (Header_Get r AUTH_HEADER) "JWT ");
      rewrite ?Hne; simpl; rewrite ?Hne; reflexivity.
Qed.

Lemma ExtractJwt_precedence_witness :
  ExtractJwt (Sample.post "" "" "JWT good.A.sig" ∅) = ("good.A.sig", true)
  /\ ExtractJwt (Sample.post "good.A.sig" "" "JWT other" ∅) = ("good.A.sig", true)
  /\ ExtractJwt (Sample.post "" "good.A.sig" "JWT other" ∅) = ("good.A.sig", true).
Proof.
  split; [|split].
  - apply (proj1 (ExtractJwt_precedence (Sample.post "" "" "JWT good.A.sig" ∅)));
      [reflexivity | discriminate | reflexivity | reflexivity | reflexivity].
  - apply (proj1 (proj2 (ExtractJwt_precedence (Sample.post "good.A.sig" "" "JWT other" ∅))));
      [reflexivity | discriminate | reflexivity].
  - apply (proj2 (proj2 (ExtractJwt_precedence (Sample.post "" "good.A.sig" "JWT other" ∅))));
      [reflexivity | discriminate | reflexivity].
Defined.

(** ** Query string hash validation *)

(** C2: claims whose qsh entry is the empty string pass the validation on
    every request, whether or not the route skips the hash: the empty string
    is never compared with the computed canonical hash. *)
Theorem ValidateQshFromRequest_empty_qsh
    (CreateQueryStringHash : Request -> bool -> string -> string)
    (claims : gmap string iface) (r : Request) (addon : Addon) (skipQsh : bool) :
  claims !! "qsh" = Some (IString "") ->
  ValidateQshFromRequest CreateQueryStringHash claims r addon skipQsh = true.
Proof.
  intros H. unfold ValidateQshFromRequest.
  rewrite (index_lookup _ _ _ H). simpl.
  now rewrite andb_false_r.
Qed.

Lemma ValidateQshFromRequest_empty_qsh_witness :
  ValidateQshFromRequest (fun _ _ _ => "H")
    {[ "iss" := IString "tenantA"; "qsh" := IString "" ]}
    (Sample.get_with_query "emptyqsh.A.sig") (Sample.the_addon false) false = true.
Proof.
  apply ValidateQshFromRequest_empty_qsh. reflexivity.
Defined.

(** Claims without a qsh entry, on a route that does not skip the hash, never
    pass: the nil value differs from every computed hash. *)
Lemma ValidateQshFromRequest_absent_qsh
    (CreateQueryStringHash : Request -> bool -> string -> string)
    (claims : gmap string iface) (r : Request) (addon : Addon) :
  claims !! "qsh" = None ->
  ValidateQshFromRequest CreateQueryStringHash claims r addon false = false.
Proof.
  intros H. unfold ValidateQshFromRequest.
  now rewrite (index_absent _ _ H).
Qed.

(** ** Route registration *)


(** When the router accepts every pattern, the registration returns, with
    the bindings appended in the order of the calls. *)
Lemma RegisterRoutes_accepted (accepts : string -> bool) (base : string)
    (enabled disabled : option Handler) (rt : Router) :
  forallb accepts (route_patterns base enabled disabled) = true ->
  let b := route_base base in
  RegisterRoutes accepts base enabled disabled rt =
  ({| RegisteredRoutes :=
        app (RegisteredRoutes rt)
            [b ++ "atlassian-connect.json"; b ++ "installed"; b ++ "uninstalled"];
      mux :=
        app (mux rt)
          (app [(b ++ "atlassian-connect.json", AtlassianConnectHandler);
                (b ++ "installed", NewVerifyInstallationMiddleware InstalledHandler);
                (b ++ "uninstalled", NewAuthenticationMiddleware false UninstalledHandler)]
             (app (match enabled with
                   | Some e => [(b ++ "enabled", NewAuthenticationMiddleware false e)]
                   | None => []
                   end)
                  (match disabled with
                   | Some d => [(b ++ "disabled", NewAuthenticationMiddleware false d)]
                   | None => []
                   end))) |}, true).
Proof.
  unfold route_patterns, RegisterRoutes, Handle. fold (route_base base).
  cbv zeta. cbn [app forallb].
  intros H. repeat (apply andb_true_iff in H as [? H]).
  repeat match goal with E : _ = true |- _ => rewrite E; clear E end.
  destruct enabled, disabled; cbn [app forallb andb] in H.
  all: repeat (apply andb_true_iff in H as [? H]).
  all: repeat match goal with E : _ = true |- _ => rewrite E; clear E end.
  all: rewrite <- ?app_assoc; reflexivity.
Qed.

Lemma bound_app (pattern : string) (m l : list (string * Handler)) :
  bound pattern (app m l) =
  match bound pattern l with
  | Some h => Some h
  | None => bound pattern m
  end.
Proof.
  induction m as [|[p h] m IH]; simpl.
  - now destruct (bound pattern l).
  - rewrite IH. now destruct (bound pattern l).
Qed.

(** The registration returns exactly when the router accepts every pattern
    handed to it. *)
Lemma RegisterRoutes_returns (accepts : string -> bool) (base : string)
    (enabled disabled : option Handler) (rt : Router) :
  snd (RegisterRoutes accepts base enabled disabled rt) = true <->
  forallb accepts (route_patterns base enabled disabled) = true.
Proof.
  split; [|intros H; now rewrite (RegisterRoutes_accepted _ _ _ _ _ H)].
  unfold route_patterns, RegisterRoutes, Handle. fold (route_base base).
  cbv zeta. cbn [app forallb].
  destruct (accepts (route_base base ++ "atlassian-connect.json")); [|discriminate].
  destruct (accepts (route_base base ++ "installed")); [|discriminate].
  destruct (accepts (route_base base ++ "uninstalled")); [|discriminate].
  destruct enabled, disabled; cbn [app forallb andb];
    try destruct (accepts (route_base base ++ "enabled"));
    try destruct (accepts (route_base base ++ "disabled"));
    simpl; congruence.
Qed.

(** When the router refuses the first pattern, the registration stops
    there: the three routes are recorded and nothing is bound. *)
Lemma RegisterRoutes_refused (accepts : string -> bool) (base : string)
    (enabled disabled : option Handler) (rt : Router) :
  accepts (route_base base ++ "atlassian-connect.json") = false ->
  let b := route_base base in
  RegisterRoutes accepts base enabled disabled rt =
  ({| RegisteredRoutes :=
        app (RegisteredRoutes rt)
            [b ++ "atlassian-connect.json"; b ++ "installed"; b ++ "uninstalled"];
      mux := mux rt |}, false).
Proof.
  intros H. unfold RegisterRoutes, Handle. fold (route_base base). cbv zeta.
  now rewrite H.
Qed.

(** C6, as stated, fails: the handler bound to the uninstalled path is not
    wrapped by the installation handshake. *)
Lemma uninstalled_not_gated_by_handshake :
  ~ (forall (accepts : string -> bool) (base : string)
            (enabled disabled : option Handler) (rt : Router),
        forallb accepts (route_patterns base enabled disabled) = true ->
        exists h : Handler,
          bound (route_base base ++ "uninstalled")
                (mux (fst (RegisterRoutes accepts base enabled disabled rt))) = Some h
          /\ gated_by_handshake h = true).
Proof.
  intros H.
  destruct (H Sample.plain "" None None {| RegisteredRoutes := []; mux := [] |}
              eq_refl) as (h & Hb & Hg).
  vm_compute in Hb. injection Hb as <-. discriminate Hg.
Qed.

(** C6, amended: whatever the base path, the optional handlers and the
    routes registered before, when the router accepts the patterns handed
    to it the registration returns, the uninstalled path is bound to the
    uninstalled handler behind the authentication middleware with the query
    string hash enforced, and the installed path alone is bound behind the
    installation handshake. *)
Theorem uninstalled_gated_by_authentication
    (accepts : string -> bool) (base : string)
    (enabled disabled : option Handler) (rt : Router) :
  forallb accepts (route_patterns base enabled disabled) = true ->
  snd (RegisterRoutes accepts base enabled disabled rt) = true
  /\ bound (route_base base ++ "uninstalled")
           (mux (fst (RegisterRoutes accepts base enabled disabled rt)))
     = Some (NewAuthenticationMiddleware false UninstalledHandler)
  /\ bound (route_base base ++ "installed")
           (mux (fst (RegisterRoutes accepts base enabled disabled rt)))
     = Some (NewVerifyInstallationMiddleware InstalledHandler).
Proof.
  intros H. rewrite (RegisterRoutes_accepted _ _ _ _ _ H). cbn [fst snd mux].
  split; [reflexivity|].
  split; destruct disabled, enabled; cbn [app];
    rewrite bound_app; cbn [bound]; rewrite ?append_eqb_l; reflexivity.
Qed.

Lemma uninstalled_gated_by_authentication_witness :
  let r := RegisterRoutes Sample.plain " /api/ " (Some (CallerHandler "enabled")) None
             {| RegisteredRoutes := []; mux := [] |} in
  snd r = true
  /\ bound "/api/uninstalled" (mux (fst r))
     = Some (NewAuthenticationMiddleware false UninstalledHandler)
  /\ bound "/api/installed" (mux (fst r))
     = Some (NewVerifyInstallationMiddleware InstalledHandler).
Proof.
  apply (uninstalled_gated_by_authentication Sample.plain " /api/ "
           (Some (CallerHandler "enabled")) None
           {| RegisteredRoutes := []; mux := [] |}).
  reflexivity.
Defined.

(** ** Key resolver *)

Lemma cache_Get_fresh (now : Z) (c : gmap string Item) (k pem : string) :
  cache_Get now c k = Some pem <->
  exists it : Item, c !! k = Some it /\ Object it = pem /\ expired now it = false.
Proof.
  unfold cache_Get. split.
  - destruct (c !! k) as [it|] eqn:E; [|discriminate].
    destruct (expired now it) eqn:X; [discriminate|].
    intros [= <-]. now exists it.
  - intros (it & -> & <- & ->). reflexivity.
Qed.

Lemma cache_Add_then_Get (now : Z) (c : gmap string Item) (k x : string) :
  cache_Get now c k = None ->
  cache_Get now (cache_Add now c k x DefaultExpiration) k = Some x.
Proof.
  intros H. unfold cache_Add. rewrite H. simpl.
  unfold cache_Get. rewrite lookup_insert_eq.
  unfold expired. cbn [Expiration Object].
  replace (now + defaultExpiration <? now) with false.
  - now rewrite andb_false_r.
  - symmetry. apply Z.ltb_ge. unfold defaultExpiration, hour. lia.
Qed.

(** C4, as stated, fails: on a transport error the resolver returns that
    error at once, although the fallback cache holds a fresh entry for the
    key id. *)
Lemma fetchKeyWithKeyId_transport_error_skips_cache :
  ~ (forall (http_Get : string -> string -> HttpResult)
            (path_Join : string -> string -> string) (now : Z)
            (keyId : string) (c : gmap string Item),
        live_fetch_failed
          (http_Get CONNECT_INSTALL_KEYS_CDN_URL (path_Join "" keyId)) = true ->
        fst (fetchKeyWithKeyId http_Get path_Join now keyId c)
          = Some (fallback now c keyId)).
Proof.
  intros H.
  specialize (H Sample.cdn_unreachable Sample.path_Join Sample.now "k1"
                {[ "k1" := {| Object := "PEM k1"; Expiration := 12 * hour |} ]}
                eq_refl).
  vm_compute in H. discriminate H.
Qed.

(** C4, amended: when the endpoint answers with a status other than 200, the
    resolver consults the fallback cache, returns the cached text of a fresh
    entry and fails with the unavailable-key error when there is none,
    leaving the cache as it was; when the request itself fails, the resolver
    returns the transport error without consulting the cache. *)
Theorem fetchKeyWithKeyId_on_failure
    (http_Get : string -> string -> HttpResult)
    (path_Join : string -> string -> string) (now : Z)
    (keyId : string) (c : gmap string Item) :
  (forall (StatusCode : Z) (ResponseBody : string + string),
      http_Get CONNECT_INSTALL_KEYS_CDN_URL (path_Join "" keyId)
        = Response StatusCode ResponseBody ->
      StatusCode <> 200 ->
      fetchKeyWithKeyId http_Get path_Join now keyId c
        = (Some (fallback now c keyId), c))
  /\ (forall err : string,
      http_Get CONNECT_INSTALL_KEYS_CDN_URL (path_Join "" keyId)
        = TransportError err ->
      fetchKeyWithKeyId http_Get path_Join now keyId c = (Some (inr err), c)).
Proof.
  split.
  - intros code body Hres Hcode. unfold fetchKeyWithKeyId, fallback.
    rewrite Hres. apply Z.eqb_neq in Hcode. rewrite Hcode.
    destruct (cache_Get now c keyId); reflexivity.
  - intros err Hres. unfold fetchKeyWithKeyId. now rewrite Hres.
Qed.

Lemma fetchKeyWithKeyId_on_failure_witness :
  let fresh := {[ "k1" := {| Object := "PEM k1"; Expiration := 12 * hour |} ]} in
  let stale := {[ "k1" := {| Object := "PEM k1"; Expiration := 9 * hour |} ]} in
  Sample.resolve Sample.cdn_down "k1" fresh = (Some (inl "PEM k1"), fresh)
  /\ Sample.resolve Sample.cdn_down "k1" stale = (Some (inr KeyUnavailable), stale)
  /\ Sample.resolve Sample.cdn_unreachable "k1" fresh
     = (Some (inr "dial tcp: i/o timeout"), fresh).
Proof.
  intros fresh stale. split; [|split].
  - apply (proj1 (fetchKeyWithKeyId_on_failure
                    Sample.cdn_down Sample.path_Join Sample.now "k1" fresh)
             503 (inl "Service Unavailable")); [reflexivity | lia].
  - apply (proj1 (fetchKeyWithKeyId_on_failure
                    Sample.cdn_down Sample.path_Join Sample.now "k1" stale)
             503 (inl "Service Unavailable")); [reflexivity | lia].
  - apply (proj2 (fetchKeyWithKeyId_on_failure
                    Sample.cdn_unreachable Sample.path_Join Sample.now "k1" fresh));
      reflexivity.
Defined.

(** ** Installation handshake *)

Lemma iface_eq_string_spec (v : iface) (s : string) :
  iface_eq_string v s = true <-> v = IString s.
Proof.
  destruct v; simpl; try (split; [discriminate | intros [=]]).
  rewrite String.eqb_eq. split; [now intros -> | now intros [= ->]].
Qed.

Lemma iface_eq_string_false (v : iface) (s : string) :
  iface_eq_string v s = false <-> v <> IString s.
Proof.
  rewrite <- iface_eq_string_spec. destruct (iface_eq_string v s); split; congruence.
Qed.

Section Installation.

Variable ParseUnverified : string -> parsed.
Variable Method_Verify : SigningMethod -> string -> key -> bool.
Variable Claims_Valid : gmap string iface -> bool.
Variable VerifyAudience : gmap string iface -> string -> bool.
Variable ParseRSAPublicKeyFromPEM : string -> key + string.
Variable CreateQueryStringHash : Request -> bool -> string -> string.
Variable http_Get : string -> string -> HttpResult.
Variable path_Join : string -> string -> string.
Variable now : Z.

Local Abbreviation handshake :=
  (VerifyInstallationMiddleware_ServeHTTP ParseUnverified Method_Verify Claims_Valid
     VerifyAudience ParseRSAPublicKeyFromPEM CreateQueryStringHash http_Get
     path_Join now).

Local Abbreviation verify :=
  (verifyAsymmetricJwtAndGetClaims ParseUnverified Method_Verify Claims_Valid
     VerifyAudience ParseRSAPublicKeyFromPEM CreateQueryStringHash http_Get
     path_Join now).

(** C5, amended: an installation request whose body holds a baseUrl and no
    clientKey is logged and ended there: nothing is written to the
    response, the wrapped handler is not invoked, and the fallback cache is
    untouched. *)
Theorem missing_clientKey_ends_request
    (addon : Addon) (r : Request) (c : gmap string Item) (baseUrl : iface) :
  install_payload r baseUrl None ->
  handshake addon r c = (emit (EvLog Warn "No clientKey provided for host %s"), c)
  /\ forwarded (trace (fst (handshake addon r c))) = false
  /\ response_status (trace (fst (handshake addon r c))) = None
  /\ panicked (fst (handshake addon r c)) = false.
Proof.
  intros (form & data & Hbody & Hbase & Hck).
  assert (E : handshake addon r c
              = (emit (EvLog Warn "No clientKey provided for host %s"), c)).
  { unfold VerifyInstallationMiddleware_ServeHTTP.
    now rewrite Hbody, Hbase, Hck. }
  rewrite E. repeat split.
Qed.

Lemma decodeAsymmetric_verified (tokenStr publicKey : string)
    (alg : SigningMethod) (claims : gmap string iface) :
  snd (decodeAsymmetric ParseUnverified Method_Verify Claims_Valid
         ParseRSAPublicKeyFromPEM tokenStr publicKey alg false) = Some (inl claims) ->
  exists (t : Token) (m : SigningMethod) (k : key),
    ParseUnverified tokenStr = ParseOk t
    /\ Claims t = Some claims
    /\ TMethod t = Some m
    /\ Alg m = Alg alg
    /\ ParseRSAPublicKeyFromPEM publicKey = inl k
    /\ Method_Verify m tokenStr k = true
    /\ Claims_Valid claims = true.
Proof.
  unfold decodeAsymmetric, Parse.
  destruct (ParseUnverified tokenStr) as [|t err|t] eqn:EP; simpl.
  - discriminate.
  - destruct (TMethod t) as [m|]; simpl; [|discriminate].
    destruct (String.eqb (Alg m) (Alg alg)); simpl; discriminate.
  - destruct (TMethod t) as [m|] eqn:EM; simpl; [|discriminate].
    destruct (String.eqb (Alg m) (Alg alg)) eqn:EA; simpl; [|discriminate].
    destruct (ParseRSAPublicKeyFromPEM publicKey) as [k|e] eqn:EK; simpl; [|discriminate].
    destruct (Claims t) as [cl|] eqn:EC; simpl; [|discriminate].
    destruct (Claims_Valid cl && Method_Verify m tokenStr k) eqn:EV; simpl; [|discriminate].
    rewrite EC. simpl. intros [= <-].
    apply andb_true_iff in EV as [? ?]. apply String.eqb_eq in EA.
    exists t, m, k. repeat split; assumption.
Qed.

Lemma decodeAsymmetricToken_verified (tokenStr : string)
    (claims : gmap string iface) (c c' : gmap string Item) :
  decodeAsymmetricToken ParseUnverified Method_Verify Claims_Valid
    ParseRSAPublicKeyFromPEM http_Get path_Join now tokenStr false c
    = (Some (inl claims), c') ->
  verified_RS256 ParseUnverified Method_Verify Claims_Valid
    ParseRSAPublicKeyFromPEM tokenStr claims.
Proof.
  unfold decodeAsymmetricToken.
  unfold mbind, K_bind, K_of, K_lift at 1.
  destruct (Parse _ _ _ tokenStr None) as [tr [[tk e]|]]; simpl; [|discriminate].
  destruct tk as [tk|]; simpl; [|discriminate].
  destruct (Header tk !! "kid") as [kid|]; simpl; [|discriminate].
  destruct (as_string kid) as [keyId ok].
  destruct (negb ok || is_empty keyId); simpl; [discriminate|].
  destruct (fetchKeyWithKeyId _ _ _ keyId c) as [[[pem|e']|] c1]; simpl;
    try discriminate.
  unfold K_lift. intros [= H _].
  apply decodeAsymmetric_verified in H as (t & m & k & ? & ? & ? & ? & ? & ? & ?).
  exists t, m, k, pem. repeat split; assumption.
Qed.

Lemma decodeAsymmetricToken_unverified (tokenStr : string)
    (claims : gmap string iface) (c c' : gmap string Item) :
  decodeAsymmetricToken ParseUnverified Method_Verify Claims_Valid
    ParseRSAPublicKeyFromPEM http_Get path_Join now tokenStr true c
    = (Some (inl claims), c') ->
  forall t : Token, ParseUnverified tokenStr = ParseOk t -> Claims t = Some claims.
Proof.
  unfold decodeAsymmetricToken.
  unfold mbind, K_bind, K_of, K_lift at 1.
  intros H t Ht. revert H.
  unfold Parse at 1. rewrite Ht. simpl.
  destruct (Header t !! "kid") as [kid|]; simpl; [|discriminate].
  destruct (as_string kid) as [keyId ok].
  destruct (negb ok || is_empty keyId); simpl; [discriminate|].
  destruct (fetchKeyWithKeyId _ _ _ keyId c) as [[[pem|e']|] c1]; simpl;
    try discriminate.
  unfold K_lift, decodeAsymmetric, Parse. rewrite Ht. simpl.
  destruct (TMethod t) as [m|]; simpl; [|discriminate].
  destruct (String.eqb (Alg m) "RS256"); simpl; [|discriminate].
  destruct (Claims t) as [cl|]; simpl; [|discriminate].
  now intros [= -> _].
Qed.

(** The client key that the asymmetric verification returns is the issuer
    claim of a token whose RS256 signature and time claims were verified
    and whose query string hash matches the request. *)
Lemma verify_issuer (addon : Addon) (r : Request) (c c' : gmap string Item)
    (iss : string) :
  verify addon r c = (Some (inl iss), c') ->
  exists (tokenStr : string) (claims : gmap string iface),
    ExtractJwt r = (tokenStr, true)
    /\ verified_RS256 ParseUnverified Method_Verify Claims_Valid
         ParseRSAPublicKeyFromPEM tokenStr claims
    /\ index claims "iss" = IString iss
    /\ ValidateQshFromRequest CreateQueryStringHash claims r addon false = true.
Proof.
  unfold verifyAsymmetricJwtAndGetClaims.
  destruct (ExtractJwt r) as [tokenStr ok]. destruct ok; simpl; [|discriminate].
  unfold mbind at 1, K_bind at 1.
  destruct (decodeAsymmetricToken _ _ _ _ _ _ _ tokenStr true c)
    as [[[ucl|e]|] c1] eqn:EU; simpl; try discriminate.
  destruct (iface_eq_string (index ucl "iss") ""); simpl; [discriminate|].
  unfold mbind at 1, K_bind at 1, K_of, K_lift.
  destruct (index ucl "iss") as [| | |s| |] eqn:EI; simpl; try discriminate.
  destruct (VerifyAudience ucl (Config_BaseUrl addon)); simpl; [|discriminate].
  destruct (iface_eq_string (index ucl "qsh") ""); simpl; [discriminate|].
  unfold mbind at 1, K_bind at 1.
  destruct (decodeAsymmetricToken _ _ _ _ _ _ _ tokenStr false c1)
    as [[[vcl|e]|] c2] eqn:EV; simpl; try discriminate.
  destruct (Claims_Valid vcl); simpl; [|discriminate].
  destruct (ValidateQshFromRequest _ vcl r addon false) eqn:EQ; simpl; [|discriminate].
  intros [= -> _].
  pose proof (decodeAsymmetricToken_verified _ _ _ _ EV) as HV.
  destruct HV as (t & m & k & pem & Ht & Hc & Hrest).
  pose proof (decodeAsymmetricToken_unverified _ _ _ _ EU t Ht) as Hu.
  assert (ucl = vcl) by congruence. subst ucl.
  exists tokenStr, vcl. repeat split; try assumption.
  exists t, m, k, pem. auto.
Qed.

(** C10: on a signed installation request, with signed installs required
    and the asymmetric verification passed with client key [iss], [iss] is
    the issuer of the verified RS256 token; the request is forwarded when
    the body's clientKey is that issuer, and is answered 401 with the
    client key mismatch, the wrapped handler not invoked, when it is
    anything else. *)
Theorem signed_install_clientKey_check
    (addon : Addon) (r : Request) (c c' : gmap string Item)
    (baseUrl clientKey : iface) (iss : string) :
  install_payload r baseUrl (Some clientKey) ->
  Config_SignedInstall addon = true ->
  snd (isJwtAsymmetric ParseUnverified Method_Verify Claims_Valid r) = Some true ->
  verify addon r c = (Some (inl iss), c') ->
  (exists (tokenStr : string) (claims : gmap string iface),
     ExtractJwt r = (tokenStr, true)
     /\ verified_RS256 ParseUnverified Method_Verify Claims_Valid
          ParseRSAPublicKeyFromPEM tokenStr claims
     /\ index claims "iss" = IString iss)
  /\ (clientKey = IString iss ->
     fst (handshake addon r c) = emit (EvNext [("clientKey", iss)])
     /\ forwarded (trace (fst (handshake addon r c))) = true)
  /\ (clientKey <> IString iss ->
     fst (handshake addon r c) = SendError 401 ClientKeyMismatch
     /\ response_status (trace (fst (handshake addon r c))) = Some 401
     /\ forwarded (trace (fst (handshake addon r c))) = false).
Proof.
  intros (form & data & Hbody & Hbase & Hck) Hsigned Hasym Hverify.
  assert (E : fst (handshake addon r c)
              = if iface_eq_string clientKey iss
                then emit (EvNext [("clientKey", iss)])
                else SendError 401 ClientKeyMismatch).
  { unfold VerifyInstallationMiddleware_ServeHTTP.
    rewrite Hbody, Hbase, Hck, Hsigned.
    destruct (isJwtAsymmetric _ _ _ r) as [t o]. simpl in Hasym. subst o.
    unfold signedInstallMiddleware_ServeHTTP.
    rewrite Hverify. reflexivity. }
  rewrite E. split; [|split; intros Hk].
  - destruct (verify_issuer _ _ _ _ _ Hverify) as (tokenStr & claims & ? & ? & ? & _).
    now exists tokenStr, claims.
  - apply iface_eq_string_spec in Hk. rewrite Hk. split; reflexivity.
  - apply iface_eq_string_false in Hk. rewrite Hk. repeat split.
Qed.

End Installation.

(** ** Authentication middleware *)

#[local] Arguments index : simpl never.

Section Authentication.

Variable ParseUnverified : string -> parsed.
Variable Method_Verify : SigningMethod -> string -> key -> bool.
Variable Claims_Valid : gmap string iface -> bool.
Variable SignedString : SigningMethod -> StandardClaims -> string -> string + string.
Variable CreateQueryStringHash : Request -> bool -> string -> string.

Local Abbreviation serve :=
  (AuthenticationMiddleware_ServeHTTP ParseUnverified Method_Verify Claims_Valid
     SignedString CreateQueryStringHash).

(** The steps of a decoded request after the issuer check. *)
Lemma serve_decoded (h : AuthenticationMiddleware) (r : Request) (tokenStr : string)
    (t : Token) (claims : gmap string iface) (clientKey : string) :
  decoded ParseUnverified r tokenStr t claims clientKey ->
  serve h r =
  ((if qsh_reported h claims then SendError 401 MissingQsh else mret tt);;
   match Store_Get (addon h) clientKey with
   | inr _ => SendError 500 "Could not lookup stored client data for clientKey"
   | inl tenant =>
       if is_empty (SharedSecret tenant) then
         SendError 401 "Could not find JQT sharedSecret in tenant clientKey"
       else
         match keyFunc (SharedSecret tenant) t with
         | inr _ =>
             emit (EvLog Error "JWT Token verification error: %v");;
             SendError 500 "Could not verify JWT Token"
         | inl k =>
             method ← lift (TMethod t);
             if Claims_Valid claims && Method_Verify method tokenStr k then
               if negb (ValidateQshFromRequest CreateQueryStringHash claims r
                          (addon h) (skipQsh h)) then
                 SendError 401 QshMismatch
               else
                 match SignedString SigningMethodHS256
                         (sessionClaims h clientKey claims) (SharedSecret tenant) with
                 | inr e => SendError 500 ("Could not create new access token " ++ e)
                 | inl signedToken =>
                     emit (EvHeaderSet "X-acpt" signedToken);;
                     accountID ←
                       (if bool_decide (index claims "sub" = INil) then mret ""
                        else assert_string (index claims "sub"));
                     emit (EvNext
                             [("clientKey", clientKey);
                              ("hostBaseUrl", BaseURL tenant);
                              ("token", signedToken);
                              ("userAccountId", accountID);
                              ("tenantContext", Context tenant)])
                 end
             else
               emit (EvLog Error "JWT Token verification error: %v");;
               SendError 500 "Could not verify JWT Token"
         end
   end).
Proof.
  intros (Hx & Hp & Hc & Hi & Hne). apply String.eqb_neq in Hne.
  unfold AuthenticationMiddleware_ServeHTTP, extractUnverifiedClaims,
    createSessionToken, Parse, qsh_reported.
  rewrite Hx, Hp. cbn -[index keyFunc sessionClaims ValidateQshFromRequest].
  rewrite Hc. cbn -[index keyFunc sessionClaims ValidateQshFromRequest].
  rewrite Hi. cbn -[index keyFunc sessionClaims ValidateQshFromRequest].
  rewrite Hne. cbn -[index keyFunc sessionClaims ValidateQshFromRequest].
  destruct (iface_eq_string (index claims "qsh") "" && negb (skipQsh h));
    (destruct (Store_Get (addon h) clientKey) as [tenant|e]; [|reflexivity]);
    (destruct (is_empty (SharedSecret tenant)); [reflexivity|]);
    (destruct (keyFunc (SharedSecret tenant) t) as [k|e]; [|reflexivity]);
    (destruct (TMethod t) as [m|]; [|reflexivity]);
    cbn -[index keyFunc sessionClaims ValidateQshFromRequest];
    (destruct (Claims_Valid claims) eqn:EV;
     destruct (Method_Verify m tokenStr k); try reflexivity);
    cbn -[index keyFunc sessionClaims ValidateQshFromRequest];
    rewrite Hc; cbn -[index keyFunc sessionClaims ValidateQshFromRequest];
    rewrite EV; cbn -[index keyFunc sessionClaims ValidateQshFromRequest];
    (destruct (ValidateQshFromRequest CreateQueryStringHash claims r (addon h)
                 (skipQsh h)); [|reflexivity]);
    cbn -[index keyFunc sessionClaims ValidateQshFromRequest];
    (destruct (SignedString SigningMethodHS256 (sessionClaims h clientKey claims)
                 (SharedSecret tenant)) as [signedToken|e]; [|reflexivity]);
    cbn -[index keyFunc sessionClaims ValidateQshFromRequest];
    destruct (bool_decide (index claims "sub" = INil));
    try reflexivity;
    destruct (index claims "sub"); reflexivity.
Qed.
(** C7, amended: once the token is decoded and the early missing-hash
    report is not written, a failed step is reported with the status of
    [reported_status]: 401 for an empty shared secret and a query string
    hash mismatch; 500 for a failed tenant lookup, an unsupported
    algorithm, an invalid signature, expired claims and a failed signing
    of the session token.  The wrapped handler is not invoked. *)
Theorem failure_reported_status
    (h : AuthenticationMiddleware) (r : Request) (tokenStr : string) (t : Token)
    (claims : gmap string iface) (clientKey : string) (f : failure) :
  decoded ParseUnverified r tokenStr t claims clientKey ->
  qsh_reported h claims = false ->
  fails_at Method_Verify Claims_Valid SignedString CreateQueryStringHash
    h r tokenStr t claims clientKey f ->
  response_status (trace (serve h r)) = Some (reported_status f)
  /\ forwarded (trace (serve h r)) = false.
Proof.
  intros Hd Hq Hf. rewrite (serve_decoded _ _ _ _ _ _ Hd), Hq.
  destruct Hf as [e Hs|tenant Hs Hsec|tenant e Hs Hsec Hk
                 |tenant k m Hs Hsec Hk Hm Hv|tenant k m Hs Hsec Hk Hm Hc
                 |tenant k m Hs Hsec Hk Hm Hv Hc Hqsh
                 |tenant k m e Hs Hsec Hk Hm Hv Hc Hqsh Hsign];
    rewrite Hs; try (apply is_empty_false in Hsec; rewrite Hsec);
    try (apply is_empty_true in Hsec; rewrite Hsec);
    try rewrite Hk; try rewrite Hm; cbn -[ValidateQshFromRequest sessionClaims];
    try rewrite Hv; try rewrite Hc; try rewrite andb_false_r;
    cbn -[ValidateQshFromRequest sessionClaims];
    try rewrite Hqsh; try rewrite Hsign; split; reflexivity.
Qed.
(** A token without a query string hash claim, on a route that enforces
    the hash, never reaches the wrapped handler, and the missing-hash
    failure is never what the caller reads. *)
Lemma absent_qsh_not_forwarded
    (h : AuthenticationMiddleware) (r : Request) (tokenStr : string) (t : Token)
    (claims : gmap string iface) (clientKey : string) :
  decoded ParseUnverified r tokenStr t claims clientKey ->
  claims !! "qsh" = None ->
  skipQsh h = false ->
  forwarded (trace (serve h r)) = false
  /\ ~ In MissingQsh (written (trace (serve h r))).
Proof.
  intros Hd Hq Hskip. rewrite (serve_decoded _ _ _ _ _ _ Hd).
  unfold qsh_reported. rewrite (index_absent _ _ Hq), Hskip.
  rewrite (ValidateQshFromRequest_absent_qsh _ _ _ _ Hq).
  cbn -[keyFunc].
  destruct (Store_Get (addon h) clientKey) as [tenant|e];
    [|split; [reflexivity | cbn; intros [[=]|[]]]].
  destruct (is_empty (SharedSecret tenant));
    [split; [reflexivity | cbn; intros [[=]|[]]]|].
  destruct (keyFunc (SharedSecret tenant) t) as [k|e];
    [|split; [reflexivity | cbn; intros [[=]|[]]]].
  destruct (TMethod t) as [m|]; [|split; [reflexivity | cbn; intros []]].
  cbn. destruct (Claims_Valid claims && Method_Verify m tokenStr k);
    split; first [reflexivity | cbn; intros [[=]|[]]].
Qed.

(** A token that decodes to claims without an issuer entry makes the
    middleware panic at the type assertion of the issuer: nothing is
    written to the response. *)
Lemma absent_issuer_panics
    (h : AuthenticationMiddleware) (r : Request) (tokenStr : string) (t : Token)
    (claims : gmap string iface) :
  ExtractJwt r = (tokenStr, true) ->
  ParseUnverified tokenStr = ParseOk t ->
  Claims t = Some claims ->
  claims !! "iss" = None ->
  serve h r = ([], None).
Proof.
  intros Hx Hp Hc Hi.
  unfold AuthenticationMiddleware_ServeHTTP, extractUnverifiedClaims, Parse.
  rewrite Hx, Hp. cbn -[index]. rewrite Hc. cbn -[index].
  rewrite (index_absent _ _ Hi). reflexivity.
Qed.

(** An empty issuer is answered 401 with the missing issuer failure. *)
Lemma empty_issuer_rejected
    (h : AuthenticationMiddleware) (r : Request) (tokenStr : string) (t : Token)
    (claims : gmap string iface) :
  ExtractJwt r = (tokenStr, true) ->
  ParseUnverified tokenStr = ParseOk t ->
  Claims t = Some claims ->
  claims !! "iss" = Some (IString "") ->
  serve h r = SendError 401 MissingIssuer.
Proof.
  intros Hx Hp Hc Hi.
  unfold AuthenticationMiddleware_ServeHTTP, extractUnverifiedClaims, Parse.
  rewrite Hx, Hp. cbn -[index]. rewrite Hc. cbn -[index].
  rewrite (index_lookup _ _ _ Hi). reflexivity.
Qed.

(** The session token's issuer is the add-on key and its audience the
    client key; its subject is the string under the claim named
    ["subject"], and empty without one. *)
Lemma sessionClaims_fields (h : AuthenticationMiddleware) (clientKey : string)
    (verClaims : gmap string iface) :
  Issuer (sessionClaims h clientKey verClaims) = Key (addon h)
  /\ Audience (sessionClaims h clientKey verClaims) = clientKey
  /\ Subject (sessionClaims h clientKey verClaims)
     = fst (as_string (index verClaims "subject")).
Proof.
  unfold sessionClaims. destruct (index verClaims "subject"); repeat split.
Qed.

(** The claim named ["sub"], which holds the host account identifier,
    plays no part in the session token. *)
Lemma sessionClaims_ignores_sub (h : AuthenticationMiddleware) (clientKey : string)
    (verClaims : gmap string iface) (sub : iface) :
  sessionClaims h clientKey (<["sub" := sub]> verClaims)
  = sessionClaims h clientKey verClaims.
Proof.
  unfold sessionClaims, index. now rewrite lookup_insert_ne.
Qed.

(** The run of an authenticated request: the session token, signed with
    HMAC-SHA256 under the tenant's shared secret, is set as the X-acpt
    header, and the wrapped handler is invoked with the verified
    identity. *)
Lemma authenticated_run
    (h : AuthenticationMiddleware) (r : Request) (tokenStr : string) (t : Token)
    (claims : gmap string iface) (clientKey : string) (tenant : Tenant)
    (signedToken accountID : string) :
  decoded ParseUnverified r tokenStr t claims clientKey ->
  qsh_reported h claims = false ->
  authenticated Method_Verify Claims_Valid SignedString CreateQueryStringHash
    h r tokenStr t claims clientKey tenant signedToken ->
  index claims "sub" = IString accountID ->
  serve h r =
  ([EvHeaderSet "X-acpt" signedToken;
    EvNext [("clientKey", clientKey); ("hostBaseUrl", BaseURL tenant);
            ("token", signedToken); ("userAccountId", accountID);
            ("tenantContext", Context tenant)]], Some tt).
Proof.
  intros Hd Hq (Hs & Hsec & (k & m & Hk & Hm & Hv) & Hc & Hqsh & Hsign) Hsub.
  rewrite (serve_decoded _ _ _ _ _ _ Hd), Hq, Hs.
  apply is_empty_false in Hsec. rewrite Hsec, Hk, Hm.
  cbn -[ValidateQshFromRequest sessionClaims]. rewrite Hc, Hv.
  cbn -[ValidateQshFromRequest sessionClaims]. rewrite Hqsh, Hsign, Hsub.
  reflexivity.
Qed.

End Authentication.

(** ** The properties on the sample deployment *)

(** C1: a token without a query string hash claim, on a route that enforces
    the hash, is not answered with the missing-hash failure.  With an
    unknown tenant the answer is 500; with everything else in order the
    answer is the hash mismatch.  A token whose hash claim is the empty
    string is answered 401 with the missing-hash failure, and the request
    goes on to the wrapped handler all the same. *)
Theorem missing_qsh_not_reported :
  let unknown := Sample.authenticate false (Sample.get_with_query "good.Z.sig") in
  let known := Sample.authenticate false (Sample.get_with_query "noqsh.A.sig") in
  let empty := Sample.authenticate false (Sample.get_with_query "emptyqsh.A.sig") in
  (response_status (trace unknown) = Some 500
   /\ written (trace unknown) = ["Could not lookup stored client data for clientKey"])
  /\ (response_status (trace known) = Some 401
      /\ written (trace known) = [QshMismatch])
  /\ (response_status (trace empty) = Some 401
      /\ written (trace empty) = [MissingQsh]
      /\ forwarded (trace empty) = true).
Proof. vm_compute. repeat split. Qed.

(** C3: a token whose claims hold no issuer entry makes the middleware
    panic: no status and no body are written.  An empty issuer is answered
    401 with the missing issuer failure. *)
Theorem absent_issuer_crashes :
  let absent := Sample.authenticate false (Sample.get_with_query "noiss.A.sig") in
  let empty := Sample.authenticate false (Sample.get_with_query "emptyiss.A.sig") in
  (panicked absent = true /\ trace absent = [])
  /\ empty = SendError 401 MissingIssuer.
Proof.
  intros absent empty. subst absent empty. unfold Sample.authenticate.
  assert (E : forall h,
             AuthenticationMiddleware_ServeHTTP Sample.ParseUnverified
               Sample.Method_Verify Sample.Claims_Valid Sample.SignedString
               Sample.CreateQueryStringHash h (Sample.get_with_query "noiss.A.sig")
             = ([], None)).
  { intros h.
    apply (absent_issuer_panics _ _ _ _ _ h _ "noiss.A.sig"
             (Sample.hs256_token {[ "qsh" := IString "H" ]})
             {[ "qsh" := IString "H" ]}); reflexivity. }
  rewrite E. split; [split; reflexivity|].
  apply (empty_issuer_rejected _ _ _ _ _ _ _ "emptyiss.A.sig"
           (Sample.hs256_token {[ "iss" := IString ""; "qsh" := IString "H" ]})
           {[ "iss" := IString ""; "qsh" := IString "H" ]}); reflexivity.
Qed.

(** C7, as stated, fails: a token whose signature does not verify is
    answered 500, not 401. *)
Lemma invalid_signature_reported_500 :
  ~ (forall (ParseUnverified : string -> parsed)
            (Method_Verify : SigningMethod -> string -> key -> bool)
            (Claims_Valid : gmap string iface -> bool)
            (SignedString : SigningMethod -> StandardClaims -> string -> string + string)
            (CreateQueryStringHash : Request -> bool -> string -> string)
            (h : AuthenticationMiddleware) (r : Request) (tokenStr : string)
            (t : Token) (claims : gmap string iface) (clientKey : string)
            (f : failure),
        decoded ParseUnverified r tokenStr t claims clientKey ->
        qsh_reported h claims = false ->
        fails_at Method_Verify Claims_Valid SignedString CreateQueryStringHash
          h r tokenStr t claims clientKey f ->
        response_status
          (trace (AuthenticationMiddleware_ServeHTTP ParseUnverified Method_Verify
                    Claims_Valid SignedString CreateQueryStringHash h r))
        = Some (claimed_status f)).
Proof.
  intros H.
  specialize (H Sample.ParseUnverified Sample.Method_Verify Sample.Claims_Valid
                Sample.SignedString Sample.CreateQueryStringHash
                {| addon := Sample.the_addon false; skipQsh := false |}
                (Sample.get_with_query "good.A.forged") "good.A.forged"
                (Sample.hs256_token {[ "iss" := IString "tenantA"; "qsh" := IString "H" ]})
                {[ "iss" := IString "tenantA"; "qsh" := IString "H" ]}
                "tenantA" SignatureInvalid).
  assert (E : Some 500 = Some 401); [|discriminate E].
  apply H.
  - repeat split; discriminate.
  - reflexivity.
  - apply (fails_signature _ _ _ _ _ _ _ _ _ _ Sample.tenantA (KBytes "secretA")
             SigningMethodHS256); first [reflexivity | discriminate].
Qed.

Lemma failure_reported_status_witness :
  let forged := Sample.authenticate false (Sample.get_with_query "good.A.forged") in
  let nosecret := Sample.authenticate false (Sample.get_with_query "good.C.sig") in
  (response_status (trace forged) = Some 500 /\ forwarded (trace forged) = false)
  /\ (response_status (trace nosecret) = Some 401 /\ forwarded (trace nosecret) = false).
Proof.
  split.
  - apply (failure_reported_status Sample.ParseUnverified Sample.Method_Verify
             Sample.Claims_Valid Sample.SignedString Sample.CreateQueryStringHash
             {| addon := Sample.the_addon false; skipQsh := false |}
             (Sample.get_with_query "good.A.forged") "good.A.forged"
             (Sample.hs256_token {[ "iss" := IString "tenantA"; "qsh" := IString "H" ]})
             {[ "iss" := IString "tenantA"; "qsh" := IString "H" ]}
             "tenantA" SignatureInvalid).
    + repeat split; discriminate.
    + reflexivity.
    + apply (fails_signature _ _ _ _ _ _ _ _ _ _ Sample.tenantA (KBytes "secretA")
               SigningMethodHS256); first [reflexivity | discriminate].
  - apply (failure_reported_status Sample.ParseUnverified Sample.Method_Verify
             Sample.Claims_Valid Sample.SignedString Sample.CreateQueryStringHash
             {| addon := Sample.the_addon false; skipQsh := false |}
             (Sample.get_with_query "good.C.sig") "good.C.sig"
             (Sample.hs256_token {[ "iss" := IString "tenantC"; "qsh" := IString "H" ]})
             {[ "iss" := IString "tenantC"; "qsh" := IString "H" ]}
             "tenantC" NoSharedSecret).
    + repeat split; discriminate.
    + reflexivity.
    + apply (fails_secret _ _ _ _ _ _ _ _ _ _ Sample.tenantC); reflexivity.
Defined.

(** C9: the verified claims carry the host account identifier ["acct-1"]
    under ["sub"]; the session token is issued by the add-on key for the
    tenant's client key, signed with the tenant's shared secret and set as
    the X-acpt header, and its subject is empty. *)
Theorem session_subject_dropped :
  let claims : gmap string iface :=
    {[ "iss" := IString "tenantA"; "qsh" := IString "H"; "sub" := IString "acct-1" ]} in
  let h := {| addon := Sample.the_addon false; skipQsh := false |} in
  index claims "sub" = IString "acct-1"
  /\ sessionClaims h "tenantA" claims
     = {| Issuer := "my-addon"; Audience := "tenantA"; Subject := "" |}
  /\ Sample.authenticate false (Sample.get_with_query "good.A.sig")
     = ([EvHeaderSet "X-acpt" "HS256:my-addon:tenantA::secretA";
         EvNext [("clientKey", "tenantA"); ("hostBaseUrl", "https://a.example");
                 ("token", "HS256:my-addon:tenantA::secretA");
                 ("userAccountId", "acct-1"); ("tenantContext", "{}")]], Some tt)
  /\ sent_headers (trace (Sample.authenticate false (Sample.get_with_query "good.A.sig")))
     = [("X-acpt", "HS256:my-addon:tenantA::secretA")].
Proof. vm_compute. repeat split. Qed.

(** C5, as stated, fails: an installation request with a baseUrl and no
    clientKey is not forwarded to the wrapped handler. *)
Lemma missing_clientKey_not_forwarded :
  ~ (forall (ParseUnverified : string -> parsed)
            (Method_Verify : SigningMethod -> string -> key -> bool)
            (Claims_Valid : gmap string iface -> bool)
            (VerifyAudience : gmap string iface -> string -> bool)
            (ParseRSAPublicKeyFromPEM : string -> key + string)
            (CreateQueryStringHash : Request -> bool -> string -> string)
            (http_Get : string -> string -> HttpResult)
            (path_Join : string -> string -> string) (now : Z)
            (addon : Addon) (r : Request) (c : gmap string Item) (baseUrl : iface),
        install_payload r baseUrl None ->
        forwarded
          (trace (fst (VerifyInstallationMiddleware_ServeHTTP ParseUnverified
                         Method_Verify Claims_Valid VerifyAudience
                         ParseRSAPublicKeyFromPEM CreateQueryStringHash http_Get
                         path_Join now addon r c))) = true).
Proof.
  intros H.
  specialize (H Sample.ParseUnverified Sample.Method_Verify Sample.Claims_Valid
                Sample.VerifyAudience Sample.ParseRSAPublicKeyFromPEM
                Sample.CreateQueryStringHash Sample.cdn_up Sample.path_Join Sample.now
                (Sample.the_addon false)
                (Sample.post "" "" "" {[ "baseUrl" := IString "https://host.example" ]})
                ∅ (IString "https://host.example")).
  assert (E : false = true); [|discriminate E].
  apply H. eexists _, _. repeat split; reflexivity.
Qed.

Lemma missing_clientKey_ends_request_witness :
  let r := Sample.post "" "" "" {[ "baseUrl" := IString "https://host.example" ]} in
  Sample.install Sample.cdn_up false r ∅
    = (emit (EvLog Warn "No clientKey provided for host %s"), ∅)
  /\ forwarded (trace (fst (Sample.install Sample.cdn_up false r ∅))) = false
  /\ response_status (trace (fst (Sample.install Sample.cdn_up false r ∅))) = None
  /\ panicked (fst (Sample.install Sample.cdn_up false r ∅)) = false.
Proof.
  intros r.
  apply (missing_clientKey_ends_request Sample.ParseUnverified Sample.Method_Verify
           Sample.Claims_Valid Sample.VerifyAudience Sample.ParseRSAPublicKeyFromPEM
           Sample.CreateQueryStringHash Sample.cdn_up Sample.path_Join Sample.now
           (Sample.the_addon false) r ∅ (IString "https://host.example")).
  eexists _, _. repeat split; reflexivity.
Defined.

Lemma signed_install_clientKey_check_witness :
  let payload (clientKey : string) : gmap string iface :=
    {[ "baseUrl" := IString "https://host.example"; "clientKey" := IString clientKey ]} in
  fst (Sample.install Sample.cdn_up true
         (Sample.post "install.B.sig" "" "" (payload "tenantB")) ∅)
    = emit (EvNext [("clientKey", "tenantB")])
  /\ fst (Sample.install Sample.cdn_up true
            (Sample.post "install.B.sig" "" "" (payload "tenantX")) ∅)
    = SendError 401 ClientKeyMismatch.
Proof.
  intros payload. split.
  - apply (signed_install_clientKey_check Sample.ParseUnverified Sample.Method_Verify
             Sample.Claims_Valid Sample.VerifyAudience Sample.ParseRSAPublicKeyFromPEM
             Sample.CreateQueryStringHash Sample.cdn_up Sample.path_Join Sample.now
             (Sample.the_addon true)
             (Sample.post "install.B.sig" "" "" (payload "tenantB")) ∅
             {[ "k1" := {| Object := "PEM k1"; Expiration := 14 * hour |} ]}
             (IString "https://host.example") (IString "tenantB") "tenantB");
      [eexists _, _; repeat split; reflexivity | reflexivity | reflexivity
      | vm_compute; reflexivity | reflexivity].
  - apply (signed_install_clientKey_check Sample.ParseUnverified Sample.Method_Verify
             Sample.Claims_Valid Sample.VerifyAudience Sample.ParseRSAPublicKeyFromPEM
             Sample.CreateQueryStringHash Sample.cdn_up Sample.path_Join Sample.now
             (Sample.the_addon true)
             (Sample.post "install.B.sig" "" "" (payload "tenantX")) ∅
             {[ "k1" := {| Object := "PEM k1"; Expiration := 14 * hour |} ]}
             (IString "https://host.example") (IString "tenantX") "tenantB");
      [eexists _, _; repeat split; reflexivity | reflexivity | reflexivity
      | vm_compute; reflexivity | discriminate].
Defined.


(** * Further properties *)

(** ** Token extraction *)

Lemma strip_prefix_Some (p s t : string) :
  strip_prefix p s = Some t -> s = p ++ t.
Proof.
  revert s. induction p as [|a p IH]; simpl; intros s H.
  - now injection H as ->.
  - destruct s as [|b s]; [discriminate|].
    destruct (Ascii.eqb_spec a b) as [->|]; [|discriminate].
    now rewrite (IH _ H).
Qed.

(** X1: token extraction succeeds with [token] exactly when [token] is not
    empty and is either the query value with no form value, or the form
    value with no query value, or, with neither of them and a body present,
    what follows ["JWT "] in the Authorization header. *)
Theorem ExtractJwt_success (r : Request) (token : string) :
  ExtractJwt r = (token, true) <->
  token <> ""
  /\ ((URL_Query_Get r JWT_PARAM = token /\ PostFormValue r JWT_PARAM = "")
      \/ (PostFormValue r JWT_PARAM = token /\ URL_Query_Get r JWT_PARAM = "")
      \/ (URL_Query_Get r JWT_PARAM = "" /\ PostFormValue r JWT_PARAM = ""
          /\ is_NoBody r = false
          /\ Header_Get r AUTH_HEADER = "JWT " ++ token)).
Proof.
  split.
  - intros H. split; [exact (ExtractJwt_ok_nonempty _ _ H)|].
    revert H. unfold ExtractJwt.
    destruct (is_empty (URL_Query_Get r JWT_PARAM)) eqn:Eq;
      destruct (is_NoBody r) eqn:Eb; simpl; try discriminate;
      destruct (is_empty (PostFormValue r JWT_PARAM)) eqn:Ef; simpl; try discriminate.
    + apply is_empty_true in Eq, Ef. rewrite Eq.
      destruct (is_empty (Header_Get r AUTH_HEADER)); simpl; [discriminate|].
      unfold HasPrefix, TrimPrefix.
      destruct (strip_prefix "JWT " (Header_Get r AUTH_HEADER)) as [t|] eqn:Es;
        simpl; [|discriminate].
      destruct (is_empty t); [discriminate|]. intros [= ->].
      right; right. repeat split; try assumption.
      now apply strip_prefix_Some in Es.
    + apply is_empty_true in Eq.
      destruct (negb (is_empty (Header_Get r AUTH_HEADER))
                && HasPrefix (Header_Get r AUTH_HEADER) "JWT ");
        rewrite ?Ef; simpl; rewrite ?Ef; intros [= <-]; right; left; auto.
    + apply is_empty_true in Ef.
      destruct (negb (is_empty (Header_Get r AUTH_HEADER))
                && HasPrefix (Header_Get r AUTH_HEADER) "JWT ");
        rewrite ?Eq; simpl; rewrite ?Eq; intros [= <-]; left; auto.
    + apply is_empty_true in Ef.
      destruct (negb (is_empty (Header_Get r AUTH_HEADER))
                && HasPrefix (Header_Get r AUTH_HEADER) "JWT ");
        rewrite ?Eq; simpl; rewrite ?Eq; intros [= <-]; left; auto.
  - intros [Hne Hcases]. apply is_empty_false in Hne. unfold ExtractJwt.
    destruct Hcases as [[Hq Hf]|[[Hf Hq]|(Hq & Hf & Hb & Hh)]].
    + rewrite Hq, Hf, Hne. simpl.
      destruct (negb (is_empty (Header_Get r AUTH_HEADER))
                && HasPrefix (Header_Get r AUTH_HEADER) "JWT ");
        rewrite ?Hne; simpl; rewrite ?Hne; reflexivity.
    + assert (Hb : is_NoBody r = false).
      { unfold PostFormValue in Hf. unfold is_NoBody.
        destruct (Body r); [|reflexivity].
        subst token. discriminate Hne. }
      rewrite Hq, Hf, Hb, Hne. simpl.
      destruct (negb (is_empty (Header_Get r AUTH_HEADER))
                && HasPrefix (Header_Get r AUTH_HEADER) "JWT ");
        rewrite ?Hne; simpl; rewrite ?Hne; reflexivity.
    + rewrite Hq, Hf, Hb, Hh. simpl. rewrite TrimPrefix_app. now rewrite Hne.
Qed.

(** ** Query string hash validation *)

Lemma ValidateQshFromRequest_cases
    (CreateQueryStringHash : Request -> bool -> string -> string)
    (claims : gmap string iface) (r : Request) (a : Addon) :
  ValidateQshFromRequest CreateQueryStringHash claims r a false = true <->
  index claims "qsh" = IString ""
  \/ index claims "qsh" = IString (CreateQueryStringHash r false (Config_BaseUrl a))
  \/ index claims "qsh" = IString (CreateQueryStringHash r true (Config_BaseUrl a)).
Proof.
  unfold ValidateQshFromRequest. simpl.
  destruct (iface_eq_string (index claims "qsh") "") eqn:E0; simpl.
  { apply iface_eq_string_spec in E0. tauto. }
  destruct (iface_eq_string (index claims "qsh")
              (CreateQueryStringHash r false (Config_BaseUrl a))) eqn:E1; simpl.
  { apply iface_eq_string_spec in E1. tauto. }
  destruct (iface_eq_string (index claims "qsh")
              (CreateQueryStringHash r true (Config_BaseUrl a))) eqn:E2; simpl.
  { apply iface_eq_string_spec in E2. tauto. }
  apply iface_eq_string_false in E0, E1, E2.
  split; [discriminate | intros [?|[?|?]]; contradiction].
Qed.

(** X2: on a route that enforces the hash, the validation passes exactly
    when the qsh claim is the empty string or is one of the two canonical
    hashes of the request; an absent claim and a claim that is not a string
    fail. *)
Theorem ValidateQshFromRequest_enforced
    (CreateQueryStringHash : Request -> bool -> string -> string)
    (claims : gmap string iface) (r : Request) (a : Addon) :
  ValidateQshFromRequest CreateQueryStringHash claims r a false = true <->
  index claims "qsh" = IString ""
  \/ index claims "qsh" = IString (CreateQueryStringHash r false (Config_BaseUrl a))
  \/ index claims "qsh" = IString (CreateQueryStringHash r true (Config_BaseUrl a)).
Proof. apply ValidateQshFromRequest_cases. Qed.

(** ** Key resolver *)

(** X3: a successful live fetch into a cache without a fresh entry for the
    key id returns the fetched text and stores it; a later fetch that gets a
    non-success status returns that text as long as the later time is within
    the four-hour expiration of the entry, and fails with the
    unavailable-key error after it. *)
Theorem fetchKeyWithKeyId_success_then_fallback
    (up down : string -> string -> HttpResult)
    (path_Join : string -> string -> string) (now later : Z)
    (keyId bodyString : string) (StatusCode : Z) (ResponseBody : string + string)
    (c : gmap string Item) :
  up CONNECT_INSTALL_KEYS_CDN_URL (path_Join "" keyId) = Response 200 (inl bodyString) ->
  down CONNECT_INSTALL_KEYS_CDN_URL (path_Join "" keyId)
    = Response StatusCode ResponseBody ->
  StatusCode <> 200 ->
  cache_Get now c keyId = None ->
  0 <= now ->
  fst (fetchKeyWithKeyId up path_Join now keyId c) = Some (inl bodyString)
  /\ fst (fetchKeyWithKeyId down path_Join later keyId
            (snd (fetchKeyWithKeyId up path_Join now keyId c)))
     = Some (if later <=? now + defaultExpiration then inl bodyString
             else inr KeyUnavailable).
Proof.
  intros Hup Hdown Hcode Hc Hnow.
  unfold fetchKeyWithKeyId at 1 3. rewrite Hup. simpl. split; [reflexivity|].
  unfold fetchKeyWithKeyId. rewrite Hdown.
  apply Z.eqb_neq in Hcode. rewrite Hcode.
  unfold cache_Add. rewrite Hc. simpl.
  unfold cache_Get. rewrite lookup_insert_eq.
  unfold expired. cbn [Expiration Object].
  assert (H0 : (0 <? now + defaultExpiration) = true).
  { apply Z.ltb_lt. unfold defaultExpiration, hour. lia. }
  rewrite H0. simpl.
  destruct (Z.leb_spec later (now + defaultExpiration)) as [Hle|Hgt].
  - replace (now + defaultExpiration <? later) with false; [reflexivity|].
    symmetry. apply Z.ltb_ge. lia.
  - replace (now + defaultExpiration <? later) with true; [reflexivity|].
    symmetry. apply Z.ltb_lt. lia.
Qed.

Lemma fetchKeyWithKeyId_success_then_fallback_witness :
  fst (Sample.resolve Sample.cdn_up "k1" ∅) = Some (inl "PEM k1")
  /\ fst (fetchKeyWithKeyId Sample.cdn_down Sample.path_Join (Sample.now + 5 * hour) "k1"
            (snd (Sample.resolve Sample.cdn_up "k1" ∅)))
     = Some (inr KeyUnavailable).
Proof.
  apply (fetchKeyWithKeyId_success_then_fallback Sample.cdn_up Sample.cdn_down
           Sample.path_Join Sample.now (Sample.now + 5 * hour) "k1" "PEM k1"
           503 (inl "Service Unavailable") ∅);
    [reflexivity | reflexivity | lia | reflexivity | unfold Sample.now, hour; lia].
Defined.

(** X4: a successful live fetch for a key id that already has a fresh cache
    entry returns the fetched text but leaves the cache as it was: the older
    text stays cached, with its older expiration, and is what a later
    fallback returns. *)
Theorem fetchKeyWithKeyId_keeps_fresh_entry
    (http_Get : string -> string -> HttpResult)
    (path_Join : string -> string -> string) (now : Z)
    (keyId bodyString cached : string) (c : gmap string Item) :
  http_Get CONNECT_INSTALL_KEYS_CDN_URL (path_Join "" keyId)
    = Response 200 (inl bodyString) ->
  cache_Get now c keyId = Some cached ->
  fetchKeyWithKeyId http_Get path_Join now keyId c = (Some (inl bodyString), c).
Proof.
  intros Hup Hc. unfold fetchKeyWithKeyId. rewrite Hup. simpl.
  unfold cache_Add. now rewrite Hc.
Qed.

Lemma fetchKeyWithKeyId_keeps_fresh_entry_witness :
  let c := {[ "k1" := {| Object := "PEM old"; Expiration := 12 * hour |} ]} in
  Sample.resolve Sample.cdn_up "k1" c = (Some (inl "PEM k1"), c).
Proof.
  intros c.
  apply (fetchKeyWithKeyId_keeps_fresh_entry Sample.cdn_up Sample.path_Join Sample.now
           "k1" "PEM k1" "PEM old" c); reflexivity.
Defined.

(** X5: whatever the endpoint answers, resolving one key id returns without
    a panic and leaves the cache entries of every other key id as they
    were; when the live fetch fails, or its body cannot be read, the whole
    cache is left as it was. *)
Theorem fetchKeyWithKeyId_frame
    (http_Get : string -> string -> HttpResult)
    (path_Join : string -> string -> string) (now : Z)
    (keyId : string) (c : gmap string Item) :
  (forall other : string,
      other <> keyId ->
      snd (fetchKeyWithKeyId http_Get path_Join now keyId c) !! other = c !! other)
  /\ ((forall bodyString : string,
          http_Get CONNECT_INSTALL_KEYS_CDN_URL (path_Join "" keyId)
            <> Response 200 (inl bodyString)) ->
      snd (fetchKeyWithKeyId http_Get path_Join now keyId c) = c)
  /\ is_Some (fst (fetchKeyWithKeyId http_Get path_Join now keyId c)).
Proof.
  unfold fetchKeyWithKeyId.
  destruct (http_Get _ _) as [err|code [body|err]]; simpl.
  2: destruct (Z.eqb_spec code 200) as [->|Hcode]; simpl.
  4: destruct (code =? 200); simpl.
  all: try (destruct (cache_Get now c keyId); simpl).
  all: repeat split; eauto.
  all: try (intros H; exfalso; eapply H; reflexivity).
  all: intros other Hother; unfold cache_Add;
    destruct (cache_Get now c keyId); simpl; [reflexivity|];
    now rewrite lookup_insert_ne.
Qed.

Lemma fetchKeyWithKeyId_frame_witness :
  let c := {[ "k2" := {| Object := "PEM k2"; Expiration := 12 * hour |} ]} in
  snd (Sample.resolve Sample.cdn_up "k1" c) !! "k2" = c !! "k2"
  /\ snd (Sample.resolve Sample.cdn_down "k1" c) = c.
Proof.
  intros c. split.
  - apply (proj1 (fetchKeyWithKeyId_frame Sample.cdn_up Sample.path_Join Sample.now
                    "k1" c)). discriminate.
  - apply (proj1 (proj2 (fetchKeyWithKeyId_frame Sample.cdn_down Sample.path_Join
                           Sample.now "k1" c))). discriminate.
Defined.

(** ** Installation handshake *)

Section InstallationPaths.

Variable ParseUnverified : string -> parsed.
Variable Method_Verify : SigningMethod -> string -> key -> bool.
Variable Claims_Valid : gmap string iface -> bool.
Variable VerifyAudience : gmap string iface -> string -> bool.
Variable ParseRSAPublicKeyFromPEM : string -> key + string.
Variable CreateQueryStringHash : Request -> bool -> string -> string.
Variable http_Get : string -> string -> HttpResult.
Variable path_Join : string -> string -> string.
Variable now : Z.

Local Abbreviation handshake :=
  (VerifyInstallationMiddleware_ServeHTTP ParseUnverified Method_Verify Claims_Valid
     VerifyAudience ParseRSAPublicKeyFromPEM CreateQueryStringHash http_Get
     path_Join now).

Local Abbreviation verify :=
  (verifyAsymmetricJwtAndGetClaims ParseUnverified Method_Verify Claims_Valid
     VerifyAudience ParseRSAPublicKeyFromPEM CreateQueryStringHash http_Get
     path_Join now).

Local Abbreviation asymmetric :=
  (isJwtAsymmetric ParseUnverified Method_Verify Claims_Valid).

(** X6: a request without a body, or whose body holds no baseUrl, is
    answered 401; the wrapped handler is not invoked and the fallback cache
    is left as it was. *)
Theorem handshake_requires_baseUrl
    (a : Addon) (r : Request) (c : gmap string Item) :
  (Body r = NoBody
   \/ exists (form : string -> string) (data : gmap string iface),
        Body r = ReadableBody form data /\ data !! "baseUrl" = None) ->
  response_status (trace (fst (handshake a r c))) = Some 401
  /\ forwarded (trace (fst (handshake a r c))) = false
  /\ snd (handshake a r c) = c.
Proof.
  unfold VerifyInstallationMiddleware_ServeHTTP.
  intros [Hb|(form & data & Hb & Hu)]; rewrite Hb; [|rewrite Hu]; repeat split.
Qed.

(** X7: when signed installs are not required, a request whose body holds a
    baseUrl and a clientKey is forwarded as it is: no token is looked at, no
    response is written and the fallback cache is left as it was. *)
Theorem unsigned_install_forwarded
    (a : Addon) (r : Request) (c : gmap string Item) (baseUrl clientKey : iface) :
  Config_SignedInstall a = false ->
  install_payload r baseUrl (Some clientKey) ->
  handshake a r c = (emit (EvNext []), c).
Proof.
  intros Hs (form & data & Hb & Hu & Hk).
  unfold VerifyInstallationMiddleware_ServeHTTP. now rewrite Hb, Hu, Hk, Hs.
Qed.

Lemma isJwtAsymmetric_false (r : Request) :
  (snd (ExtractJwt r) = false
   \/ exists (tokenStr : string) (t : Token),
        ExtractJwt r = (tokenStr, true)
        /\ (ParseUnverified tokenStr = ParseOk t
            \/ exists err : string, ParseUnverified tokenStr = ParseErr t err)
        /\ TMethod t <> Some SigningMethodRS256) ->
  asymmetric r = ([], Some false).
Proof.
  unfold isJwtAsymmetric, Parse.
  intros [Hx|(tokenStr & t & Hx & Hp & Hm)].
  - destruct (ExtractJwt r) as [tok ok]. simpl in Hx. now subst ok.
  - rewrite Hx. simpl.
    destruct Hp as [->|[err ->]]; simpl; now rewrite bool_decide_eq_false_2.
Qed.

(** X8: when signed installs are required, a request with a baseUrl and a
    clientKey that carries no token at all, or a token whose signing method
    is not RS256, is forwarded without any verification; the response only
    gets the x-unexpected-symmetric-hook header. *)
Theorem signed_install_without_RS256_forwarded
    (a : Addon) (r : Request) (c : gmap string Item) (baseUrl clientKey : iface) :
  Config_SignedInstall a = true ->
  install_payload r baseUrl (Some clientKey) ->
  (snd (ExtractJwt r) = false
   \/ exists (tokenStr : string) (t : Token),
        ExtractJwt r = (tokenStr, true)
        /\ (ParseUnverified tokenStr = ParseOk t
            \/ exists err : string, ParseUnverified tokenStr = ParseErr t err)
        /\ TMethod t <> Some SigningMethodRS256) ->
  handshake a r c
  = (([EvHeaderAdd "x-unexpected-symmetric-hook" "true"; EvNext []], Some tt), c).
Proof.
  intros Hs (form & data & Hb & Hu & Hk) Hno.
  unfold VerifyInstallationMiddleware_ServeHTTP.
  rewrite Hb, Hu, Hk, Hs, (isJwtAsymmetric_false r Hno). reflexivity.
Qed.

(** X9: when signed installs are required and the token string does not
    have the three segments of a token, the handshake panics on the nil
    token: nothing is written to the response and the wrapped handler is not
    invoked. *)
Theorem handshake_malformed_token_panics
    (a : Addon) (r : Request) (c : gmap string Item) (baseUrl clientKey : iface)
    (tokenStr : string) :
  Config_SignedInstall a = true ->
  install_payload r baseUrl (Some clientKey) ->
  ExtractJwt r = (tokenStr, true) ->
  ParseUnverified tokenStr = ParseNil ->
  handshake a r c = (([], None), c).
Proof.
  intros Hs (form & data & Hb & Hu & Hk) Hx Hp.
  unfold VerifyInstallationMiddleware_ServeHTTP.
  rewrite Hb, Hu, Hk, Hs. unfold isJwtAsymmetric, Parse. rewrite Hx, Hp.
  reflexivity.
Qed.

(** The asymmetric verification accepts a token only with the audience
    check passed and the qsh claim equal to one of the canonical hashes. *)
Lemma verify_accepts (a : Addon) (r : Request) (c c' : gmap string Item)
    (iss : string) :
  verify a r c = (Some (inl iss), c') ->
  exists (tokenStr : string) (claims : gmap string iface),
    ExtractJwt r = (tokenStr, true)
    /\ verified_RS256 ParseUnverified Method_Verify Claims_Valid
         ParseRSAPublicKeyFromPEM tokenStr claims
    /\ index claims "iss" = IString iss
    /\ iss <> ""
    /\ VerifyAudience claims (Config_BaseUrl a) = true
    /\ (index claims "qsh"
          = IString (CreateQueryStringHash r false (Config_BaseUrl a))
        \/ index claims "qsh"
          = IString (CreateQueryStringHash r true (Config_BaseUrl a))).
Proof.
  unfold verifyAsymmetricJwtAndGetClaims.
  destruct (ExtractJwt r) as [tokenStr ok]. destruct ok; simpl; [|discriminate].
  unfold mbind at 1, K_bind at 1.
  destruct (decodeAsymmetricToken _ _ _ _ _ _ _ tokenStr true c)
    as [[[ucl|e]|] c1] eqn:EU; simpl; try discriminate.
  destruct (iface_eq_string (index ucl "iss") "") eqn:EI0; simpl; [discriminate|].
  unfold mbind at 1, K_bind at 1, K_of, K_lift.
  destruct (index ucl "iss") as [| | |s| |] eqn:EI; simpl; try discriminate.
  destruct (VerifyAudience ucl (Config_BaseUrl a)) eqn:EA; simpl; [|discriminate].
  destruct (iface_eq_string (index ucl "qsh") "") eqn:EQ0; simpl; [discriminate|].
  unfold mbind at 1, K_bind at 1.
  destruct (decodeAsymmetricToken _ _ _ _ _ _ _ tokenStr false c1)
    as [[[vcl|e]|] c2] eqn:EV; simpl; try discriminate.
  destruct (Claims_Valid vcl); simpl; [|discriminate].
  destruct (ValidateQshFromRequest _ vcl r a false) eqn:EQ; simpl; [|discriminate].
  intros [= -> _].
  pose proof (decodeAsymmetricToken_verified _ _ _ _ _ _ _ _ _ _ _ EV) as HV.
  destruct HV as (t & m & k & pem & Ht & Hc & Hrest).
  pose proof (decodeAsymmetricToken_unverified _ _ _ _ _ _ _ _ _ _ _ EU t Ht) as Hu.
  assert (ucl = vcl) by congruence. subst ucl.
  exists tokenStr, vcl. split; [reflexivity|]. split; [exists t, m, k, pem; auto|].
  split; [exact EI|]. split.
  { simpl in EI0. now apply String.eqb_neq in EI0. }
  split; [exact EA|].
  apply ValidateQshFromRequest_cases in EQ as [E|E]; [|exact E].
  apply iface_eq_string_false in EQ0. contradiction.
Qed.

(** X10: on a signed installation request with signed installs required,
    the wrapped handler is invoked only if the token is a verified RS256
    token whose time claims are valid, whose audience check against the
    add-on's base URL passed, whose qsh claim is one of the two canonical
    hashes of the request, and whose non-empty issuer is the clientKey of
    the body. *)
Theorem signed_install_forwarded_only_verified
    (a : Addon) (r : Request) (c : gmap string Item) (baseUrl clientKey : iface) :
  Config_SignedInstall a = true ->
  install_payload r baseUrl (Some clientKey) ->
  snd (asymmetric r) = Some true ->
  forwarded (trace (fst (handshake a r c))) = true ->
  exists (iss tokenStr : string) (claims : gmap string iface),
    clientKey = IString iss
    /\ iss <> ""
    /\ ExtractJwt r = (tokenStr, true)
    /\ verified_RS256 ParseUnverified Method_Verify Claims_Valid
         ParseRSAPublicKeyFromPEM tokenStr claims
    /\ index claims "iss" = IString iss
    /\ VerifyAudience claims (Config_BaseUrl a) = true
    /\ (index claims "qsh"
          = IString (CreateQueryStringHash r false (Config_BaseUrl a))
        \/ index claims "qsh"
          = IString (CreateQueryStringHash r true (Config_BaseUrl a))).
Proof.
  intros Hs (form & data & Hb & Hu & Hk) Hasym.
  unfold VerifyInstallationMiddleware_ServeHTTP.
  rewrite Hb, Hu, Hk, Hs.
  destruct (isJwtAsymmetric _ _ _ r) as [tr o]. simpl in Hasym. subst o.
  unfold signedInstallMiddleware_ServeHTTP.
  destruct (verify a r c) as [[[iss|err]|] c'] eqn:EV; simpl; try discriminate.
  destruct (iface_eq_string clientKey iss) eqn:Ek; simpl; [|discriminate].
  intros _. apply iface_eq_string_spec in Ek.
  destruct (verify_accepts _ _ _ _ _ EV)
    as (tokenStr & claims & ? & ? & ? & ? & ? & ?).
  exists iss, tokenStr, claims. repeat split; assumption.
Qed.

End InstallationPaths.

(** ** Authentication middleware *)

Section AuthenticationPaths.

Variable ParseUnverified : string -> parsed.
Variable Method_Verify : SigningMethod -> string -> key -> bool.
Variable Claims_Valid : gmap string iface -> bool.
Variable SignedString : SigningMethod -> StandardClaims -> string -> string + string.
Variable CreateQueryStringHash : Request -> bool -> string -> string.

Local Abbreviation serve :=
  (AuthenticationMiddleware_ServeHTTP ParseUnverified Method_Verify Claims_Valid
     SignedString CreateQueryStringHash).

Ltac step :=
  match goal with
  | |- context [match ?x with _ => _ end] =>
      lazymatch x with
      | context [match _ with _ => _ end] => fail
      | _ => destruct x eqn:?
      end
  end.

(** X11: a request that the middleware neither forwards nor panics on is
    answered 401 or 500: no request is dropped without a status. *)
Theorem serve_answers (h : AuthenticationMiddleware) (r : Request) :
  panicked (serve h r) = false ->
  forwarded (trace (serve h r)) = false ->
  response_status (trace (serve h r)) = Some 401
  \/ response_status (trace (serve h r)) = Some 500.
Proof.
  unfold AuthenticationMiddleware_ServeHTTP, extractUnverifiedClaims,
    createSessionToken, Parse, SendError, emit, lift, assert_string, panic.
  unfold mbind, M_bind, mret, M_ret.
  repeat (step; cbn -[index keyFunc sessionClaims ValidateQshFromRequest] in *;
          try discriminate; try congruence; auto).
Qed.

(** X12: the wrapped handler is invoked only for a request whose token
    decodes without error to claims with a non-empty string issuer, whose
    tenant is stored with a non-empty shared secret, whose algorithm the key
    function accepts, whose signature verifies under the key it returns,
    whose time claims are valid, whose query string hash validation passes
    and whose session token could be signed. *)
Theorem forwarded_only_authenticated (h : AuthenticationMiddleware) (r : Request) :
  forwarded (trace (serve h r)) = true ->
  exists (tokenStr : string) (t : Token) (claims : gmap string iface)
         (clientKey : string) (tenant : Tenant) (signedToken : string),
    decoded ParseUnverified r tokenStr t claims clientKey
    /\ authenticated Method_Verify Claims_Valid SignedString CreateQueryStringHash
         h r tokenStr t claims clientKey tenant signedToken.
Proof.
  unfold AuthenticationMiddleware_ServeHTTP, extractUnverifiedClaims,
    createSessionToken, Parse, SendError, emit, lift, assert_string, panic.
  unfold mbind, M_bind, mret, M_ret.
  repeat (step; cbn -[index keyFunc sessionClaims ValidateQshFromRequest] in *;
          try discriminate; try congruence).
  all: intros _.
  all: repeat match goal with
         | H : Some _ = Some _ |- _ => injection H as ->
         | H : negb _ = false |- _ => apply negb_false_iff in H
         | H : _ && _ = true |- _ => apply andb_true_iff in H as [? ?]
         | H : is_empty _ = false |- _ => apply is_empty_false in H
         | H : (_ =? _)%string = false |- _ => apply String.eqb_neq in H
         end.
  all: subst.
  all: eexists _, _, _, _, _, _.
  all: (split; [repeat split; eassumption|]).
  all: unfold authenticated.
  all: (split; [eassumption|]).
  all: (split; [assumption|]).
  all: (split; [eexists _, _; repeat split; eassumption|]).
  all: repeat split; eassumption.
Qed.

(** X13: the key function accepts exactly the tokens whose alg header is
    HS256 with an HMAC signing method or RS256 with an RSA signing method,
    and the key it returns is in both cases the bytes of the tenant's shared
    secret; an alg header of none, any other value, or a method of another
    family is refused. *)
Theorem keyFunc_accepts (secret : string) (t : Token) (k : key) :
  keyFunc secret t = inl k <->
  k = KBytes secret
  /\ exists m : SigningMethod,
       TMethod t = Some m
       /\ ((index (Header t) "alg" = IString "HS256" /\ Family m = HMAC)
           \/ (index (Header t) "alg" = IString "RS256" /\ Family m = RSA)).
Proof.
  unfold keyFunc. cbv zeta.
  assert (forward : forall P : Prop,
             @inl key string (KBytes secret) = inl k -> (k = KBytes secret -> P) -> P)
    by (intros P [= <-] HP; now apply HP).
  destruct (index (Header t) "alg") as [| | |s| |] eqn:Ea; cbn [iface_eq_string];
    try (split; [discriminate | intros (_ & m & _ & [[? _]|[? _]]); discriminate]).
  destruct (String.eqb_spec s "none") as [->|Hn].
  { split; [discriminate | intros (_ & m & _ & [[? _]|[? _]]); discriminate]. }
  destruct (String.eqb_spec s "HS256") as [->|Hh];
    [|destruct (String.eqb_spec s "RS256") as [->|Hr]].
  3: { split; [discriminate | intros (_ & m & _ & [[? _]|[? _]]); congruence]. }
  all: destruct (TMethod t) as [[f alg]|]; [destruct f|]; split.
  all: try (intros H; discriminate H).
  all: try (intros H; apply (forward _ H); intros ->; split; [reflexivity|];
            eexists; split; [reflexivity|];
            first [left; split; reflexivity | right; split; reflexivity]).
  all: intros (-> & m & Hm & Hcase); try discriminate Hm;
    try reflexivity;
    injection Hm as <-; cbn in Hcase;
    destruct Hcase as [[Ha Hf]|[Ha Hf]]; first [discriminate Ha | discriminate Hf].
Qed.

(** X14: once every check has passed, the X-acpt header is set and then the
    account identifier is read from the "sub" claim: an absent claim gives
    the empty identifier, a string gives that string, and any other value
    makes the middleware panic before the wrapped handler is invoked. *)
Theorem authenticated_account_id
    (h : AuthenticationMiddleware) (r : Request) (tokenStr : string) (t : Token)
    (claims : gmap string iface) (clientKey : string) (tenant : Tenant)
    (signedToken : string) :
  decoded ParseUnverified r tokenStr t claims clientKey ->
  qsh_reported h claims = false ->
  authenticated Method_Verify Claims_Valid SignedString CreateQueryStringHash
    h r tokenStr t claims clientKey tenant signedToken ->
  let identified (accountID : string) : M unit :=
    ([EvHeaderSet "X-acpt" signedToken;
      EvNext [("clientKey", clientKey); ("hostBaseUrl", BaseURL tenant);
              ("token", signedToken); ("userAccountId", accountID);
              ("tenantContext", Context tenant)]], Some tt) in
  (index claims "sub" = INil -> serve h r = identified "")
  /\ (forall accountID : string,
        index claims "sub" = IString accountID -> serve h r = identified accountID)
  /\ (index claims "sub" <> INil ->
      (forall s : string, index claims "sub" <> IString s) ->
      serve h r = ([EvHeaderSet "X-acpt" signedToken], None)).
Proof.
  intros Hd Hq (Hs & Hsec & (k & m & Hk & Hm & Hv) & Hc & Hqsh & Hsign) identified.
  rewrite (serve_decoded _ _ _ _ _ _ _ _ _ _ _ Hd), Hq, Hs.
  apply is_empty_false in Hsec. rewrite Hsec, Hk, Hm.
  cbn -[ValidateQshFromRequest sessionClaims]. rewrite Hc, Hv.
  cbn -[ValidateQshFromRequest sessionClaims]. rewrite Hqsh, Hsign.
  split; [|split].
  - intros ->. reflexivity.
  - intros accountID ->. reflexivity.
  - intros Hnil Hstr. rewrite bool_decide_eq_false_2 by exact Hnil.
    destruct (index claims "sub") as [| | |s| |]; try reflexivity.
    now destruct (Hstr s).
Qed.

(** X15: the token middleware never answers with the missing-hash or the
    hash-mismatch failure.  Whatever its qsh claim is, a request that passes
    the other checks gets no failure status and has the X-acpt header set;
    the wrapped handler is invoked exactly when the sub claim is absent or a
    string, and with any other sub value the middleware panics. *)
Theorem token_middleware_skips_qsh (a : Addon) (r : Request) :
  let run := TokenMiddleware_ServeHTTP ParseUnverified Method_Verify Claims_Valid
               SignedString CreateQueryStringHash a r in
  (~ In MissingQsh (written (trace run)) /\ ~ In QshMismatch (written (trace run)))
  /\ (forall (tokenStr : string) (t : Token) (claims : gmap string iface)
             (clientKey : string) (tenant : Tenant) (k : key) (m : SigningMethod)
             (signedToken : string),
        decoded ParseUnverified r tokenStr t claims clientKey ->
        Store_Get a clientKey = inl tenant ->
        SharedSecret tenant <> "" ->
        keyFunc (SharedSecret tenant) t = inl k ->
        TMethod t = Some m ->
        Method_Verify m tokenStr k = true ->
        Claims_Valid claims = true ->
        SignedString SigningMethodHS256
          (sessionClaims {| addon := a; skipQsh := true |} clientKey claims)
          (SharedSecret tenant) = inl signedToken ->
        response_status (trace run) = None
        /\ In (EvHeaderSet "X-acpt" signedToken) (trace run)
        /\ (forwarded (trace run) = true <->
            index claims "sub" = INil
            \/ exists accountID : string, index claims "sub" = IString accountID)
        /\ (panicked run = true <->
            ~ (index claims "sub" = INil
               \/ exists accountID : string, index claims "sub" = IString accountID))).
Proof.
  intros run. subst run. unfold TokenMiddleware_ServeHTTP. split.
  - unfold AuthenticationMiddleware_ServeHTTP, extractUnverifiedClaims,
      createSessionToken, Parse, SendError, emit, lift, assert_string, panic,
      ValidateQshFromRequest.
    unfold mbind, M_bind, mret, M_ret. cbn [skipQsh negb andb].
    rewrite ?andb_false_r.
    repeat (step; cbn -[index keyFunc sessionClaims] in *;
            try discriminate; try congruence).
    all: split; cbn; intros H;
      repeat match goal with
             | H : _ \/ _ |- _ => destruct H as [H|H]
             | H : False |- _ => destruct H
             | H : _ = _ |- _ => discriminate H
             | H : _ && false = true |- _ => rewrite andb_false_r in H
             end.
  - intros tokenStr t claims clientKey tenant k m signedToken
           Hd Hs Hsec Hk Hm Hv Hc Hsign.
    assert (Hq : qsh_reported {| addon := a; skipQsh := true |} claims = false)
      by (unfold qsh_reported; cbn; apply andb_false_r).
    assert (Ha : authenticated Method_Verify Claims_Valid SignedString
                   CreateQueryStringHash {| addon := a; skipQsh := true |}
                   r tokenStr t claims clientKey tenant signedToken).
    { repeat split; try assumption. exists k, m. auto. }
    destruct Ha as (_ & _ & _ & _ & Hqsh & _).
    rewrite (serve_decoded _ _ _ _ _ _ _ _ _ _ _ Hd), Hq.
    cbn [addon skipQsh] in *. rewrite Hs.
    apply is_empty_false in Hsec. rewrite Hsec, Hk, Hm.
    cbn -[ValidateQshFromRequest sessionClaims]. rewrite Hc, Hv.
    cbn -[ValidateQshFromRequest sessionClaims]. rewrite Hqsh, Hsign.
    destruct (index claims "sub") as [| | |s| |]; cbn.
    all: split; [reflexivity|]; split; [now left|].
    all: split;
      [ split; intro H;
        [ try discriminate H; eauto
        | destruct H as [H|[s' H]]; try discriminate H; reflexivity ]
      | split; intro H;
        [ try discriminate H; intros [H'|[s' H']]; discriminate H'
        | try reflexivity; exfalso; apply H; eauto ] ].
Qed.

End AuthenticationPaths.

(** ** Route registration *)

Lemma trim_left_head (cutset : string) (l l' : list ascii) (a : ascii) :
  trim_left cutset l = a :: l' -> in_cutset cutset a = false.
Proof.
  induction l as [|b l IH]; simpl; [discriminate|].
  destruct (in_cutset cutset b) eqn:E; [exact IH|].
  now intros [= <- _].
Qed.

Lemma trim_left_fixed (cutset : string) (l : list ascii) :
  match l with [] => True | a :: _ => in_cutset cutset a = false end ->
  trim_left cutset l = l.
Proof. destruct l as [|a l]; simpl; [reflexivity|]. now intros ->. Qed.

Lemma trim_left_suffix (cutset : string) (l : list ascii) :
  exists d : list ascii, l = app d (trim_left cutset l).
Proof.
  induction l as [|a l [d IH]]; simpl.
  - now exists [].
  - destruct (in_cutset cutset a).
    + exists (a :: d). simpl. now f_equal.
    + now exists [].
Qed.

Lemma trim_left_idempotent (cutset : string) (l : list ascii) :
  trim_left cutset (trim_left cutset l) = trim_left cutset l.
Proof.
  apply trim_left_fixed.
  destruct (trim_left cutset l) as [|a l'] eqn:E; [exact I|].
  exact (trim_left_head _ _ _ _ E).
Qed.

(** The list that [Trim] builds. *)
Lemma Trim_list (s cutset : string) :
  list_ascii_of_string (Trim s cutset)
  = rev (trim_left cutset (rev (trim_left cutset (list_ascii_of_string s)))).
Proof. unfold Trim. apply list_ascii_of_string_of_list_ascii. Qed.

(** What [Trim] returns starts and ends outside the cut set. *)
Lemma Trim_ends (s cutset : string) :
  let t := list_ascii_of_string (Trim s cutset) in
  trim_left cutset t = t /\ trim_left cutset (rev t) = rev t.
Proof.
  cbv zeta. rewrite Trim_list.
  set (l := trim_left cutset (list_ascii_of_string s)).
  set (u := trim_left cutset (rev l)).
  split.
  - apply trim_left_fixed.
    destruct (rev u) as [|a w] eqn:Eu; [exact I|].
    destruct (trim_left_suffix cutset (rev l)) as [d Hd]. fold u in Hd.
    assert (Hl : l = app (rev u) (rev d)).
    { rewrite <- rev_app_distr, <- Hd. symmetry. apply rev_involutive. }
    rewrite Eu in Hl. simpl in Hl.
    exact (trim_left_head _ _ _ _ Hl).
  - rewrite rev_involutive. apply trim_left_idempotent.
Qed.

(** X16: trimming is idempotent: what [Trim] returns is left unchanged by
    trimming it again with the same cut set. *)
Theorem Trim_idempotent (s cutset : string) :
  Trim (Trim s cutset) cutset = Trim s cutset.
Proof.
  destruct (Trim_ends s cutset) as [Hl Hr].
  unfold Trim at 1. rewrite Hl, Hr, rev_involutive.
  apply string_of_list_ascii_of_string.
Qed.

Lemma list_ascii_of_string_app (s t : string) :
  list_ascii_of_string (s ++ t) = app (list_ascii_of_string s) (list_ascii_of_string t).
Proof. induction s as [|a s IH]; simpl; [reflexivity|]. now rewrite IH. Qed.

Lemma string_of_list_ascii_inj_nil (s : string) :
  list_ascii_of_string s = [] -> s = "".
Proof. destruct s; [reflexivity | discriminate]. Qed.

(** X17: the base path is normalised to a form that normalising again
    leaves unchanged: it is ["/"], or the trimmed base between two
    slashes. *)
Theorem route_base_idempotent (base : string) :
  route_base (route_base base) = route_base base.
Proof.
  remember (route_base base) as rb eqn:Hrb. unfold route_base in Hrb.
  destruct (is_empty (Trim base base_cutset)) eqn:E; subst rb; [reflexivity|].
  apply is_empty_false in E.
  assert (Ht : Trim ("/" ++ Trim base base_cutset ++ "/") base_cutset
               = Trim base base_cutset).
  { destruct (Trim_ends base base_cutset) as [Hl Hr].
    set (ts := Trim base base_cutset) in *.
    set (t := list_ascii_of_string ts) in *.
    assert (Hne : t <> []).
    { intros H. apply E. now apply string_of_list_ascii_inj_nil. }
    unfold Trim. rewrite !list_ascii_of_string_app. fold t.
    change (list_ascii_of_string "/") with ["/"%char].
    assert (H1 : trim_left base_cutset (app ["/"%char] (app t ["/"%char]))
                 = app t ["/"%char]).
    { change (trim_left base_cutset (app ["/"%char] (app t ["/"%char])))
        with (trim_left base_cutset (app t ["/"%char])).
      destruct t as [|a w] eqn:Et; [contradiction|].
      simpl in Hl |- *. destruct (in_cutset base_cutset a) eqn:Ea; [|reflexivity].
      exfalso. pose proof (trim_left_suffix base_cutset w) as [d Hd].
      rewrite Hl in Hd. apply (f_equal (@List.length ascii)) in Hd.
      rewrite List.length_app in Hd. simpl in Hd. lia. }
    rewrite H1, rev_app_distr. simpl.
    change (in_cutset base_cutset "/") with true. cbv iota.
    rewrite Hr, rev_involutive. apply string_of_list_ascii_of_string. }
  unfold route_base. rewrite Ht.
  apply is_empty_false in E. now rewrite E.
Qed.

(** X18: when the router accepts the patterns handed to it, the descriptor
    path is bound to the descriptor handler without any gate; the enabled and
    the disabled path are bound exactly when a handler is given for them,
    each behind the authentication middleware with the query string hash
    enforced, and otherwise keep the binding they had; and only the three
    fixed routes are recorded as registered. *)
Theorem RegisterRoutes_optional_routes
    (accepts : string -> bool) (base : string)
    (enabled disabled : option Handler) (rt : Router) :
  forallb accepts (route_patterns base enabled disabled) = true ->
  let b := route_base base in
  let m := mux (fst (RegisterRoutes accepts base enabled disabled rt)) in
  bound (b ++ "atlassian-connect.json") m = Some AtlassianConnectHandler
  /\ bound (b ++ "enabled") m
     = match enabled with
       | Some e => Some (NewAuthenticationMiddleware false e)
       | None => bound (b ++ "enabled") (mux rt)
       end
  /\ bound (b ++ "disabled") m
     = match disabled with
       | Some d => Some (NewAuthenticationMiddleware false d)
       | None => bound (b ++ "disabled") (mux rt)
       end
  /\ RegisteredRoutes (fst (RegisterRoutes accepts base enabled disabled rt))
     = app (RegisteredRoutes rt)
           [b ++ "atlassian-connect.json"; b ++ "installed"; b ++ "uninstalled"].
Proof.
  intros H. cbv zeta. rewrite (RegisterRoutes_accepted _ _ _ _ _ H).
  cbn [fst mux RegisteredRoutes].
  repeat split; destruct disabled, enabled; cbn [app];
    rewrite ?bound_app; cbn [bound]; rewrite ?append_eqb_l; reflexivity.
Qed.

Lemma RegisterRoutes_optional_routes_witness :
  let rt := {| RegisteredRoutes := ["/other"];
               mux := [("/api/disabled", CallerHandler "old")] |} in
  let r := fst (RegisterRoutes Sample.plain "api" (Some (CallerHandler "e")) None rt) in
  bound "/api/atlassian-connect.json" (mux r) = Some AtlassianConnectHandler
  /\ bound "/api/enabled" (mux r)
     = Some (NewAuthenticationMiddleware false (CallerHandler "e"))
  /\ bound "/api/disabled" (mux r) = Some (CallerHandler "old")
  /\ RegisteredRoutes r
     = ["/other"; "/api/atlassian-connect.json"; "/api/installed"; "/api/uninstalled"].
Proof.
  intros rt.
  apply (RegisterRoutes_optional_routes Sample.plain "api"
           (Some (CallerHandler "e")) None rt).
  reflexivity.
Defined.



(** ** The further properties on the sample deployment *)

Lemma handshake_requires_baseUrl_witness :
  let r := Sample.post "" "" "" {[ "clientKey" := IString "tenantB" ]} in
  response_status (trace (fst (Sample.install Sample.cdn_up true r ∅))) = Some 401
  /\ forwarded (trace (fst (Sample.install Sample.cdn_up true r ∅))) = false
  /\ snd (Sample.install Sample.cdn_up true r ∅) = ∅.
Proof.
  intros r.
  apply (handshake_requires_baseUrl Sample.ParseUnverified Sample.Method_Verify
           Sample.Claims_Valid Sample.VerifyAudience Sample.ParseRSAPublicKeyFromPEM
           Sample.CreateQueryStringHash Sample.cdn_up Sample.path_Join Sample.now
           (Sample.the_addon true) r ∅).
  right. eexists _, _. split; reflexivity.
Defined.

Lemma unsigned_install_forwarded_witness :
  let r := Sample.post "" "" ""
             {[ "baseUrl" := IString "https://host.example";
                "clientKey" := IString "tenantB" ]} in
  Sample.install Sample.cdn_up false r ∅ = (emit (EvNext []), ∅).
Proof.
  intros r.
  apply (unsigned_install_forwarded Sample.ParseUnverified Sample.Method_Verify
           Sample.Claims_Valid Sample.VerifyAudience Sample.ParseRSAPublicKeyFromPEM
           Sample.CreateQueryStringHash Sample.cdn_up Sample.path_Join Sample.now
           (Sample.the_addon false) r ∅
           (IString "https://host.example") (IString "tenantB")).
  - reflexivity.
  - eexists _, _. repeat split; reflexivity.
Defined.

Lemma signed_install_without_RS256_forwarded_witness :
  let r := Sample.post "" "" ""
             {[ "baseUrl" := IString "https://host.example";
                "clientKey" := IString "tenantB" ]} in
  Sample.install Sample.cdn_up true r ∅
  = (([EvHeaderAdd "x-unexpected-symmetric-hook" "true"; EvNext []], Some tt), ∅).
Proof.
  intros r.
  apply (signed_install_without_RS256_forwarded Sample.ParseUnverified
           Sample.Method_Verify Sample.Claims_Valid Sample.VerifyAudience
           Sample.ParseRSAPublicKeyFromPEM Sample.CreateQueryStringHash Sample.cdn_up
           Sample.path_Join Sample.now (Sample.the_addon true) r ∅
           (IString "https://host.example") (IString "tenantB")).
  - reflexivity.
  - eexists _, _. repeat split; reflexivity.
  - left. reflexivity.
Defined.

Lemma handshake_malformed_token_panics_witness :
  let r := Sample.post "not-a-token" "" ""
             {[ "baseUrl" := IString "https://host.example";
                "clientKey" := IString "tenantB" ]} in
  Sample.install Sample.cdn_up true r ∅ = (([], None), ∅).
Proof.
  intros r.
  apply (handshake_malformed_token_panics Sample.ParseUnverified
           Sample.Method_Verify Sample.Claims_Valid Sample.VerifyAudience
           Sample.ParseRSAPublicKeyFromPEM Sample.CreateQueryStringHash Sample.cdn_up
           Sample.path_Join Sample.now (Sample.the_addon true) r ∅
           (IString "https://host.example") (IString "tenantB") "not-a-token").
  - reflexivity.
  - eexists _, _. repeat split; reflexivity.
  - reflexivity.
  - reflexivity.
Defined.

Lemma signed_install_forwarded_only_verified_witness :
  let r := Sample.post "install.B.sig" "" ""
             {[ "baseUrl" := IString "https://host.example";
                "clientKey" := IString "tenantB" ]} in
  exists (iss tokenStr : string) (claims : gmap string iface),
    IString "tenantB" = IString iss
    /\ iss <> ""
    /\ ExtractJwt r = (tokenStr, true)
    /\ verified_RS256 Sample.ParseUnverified Sample.Method_Verify Sample.Claims_Valid
         Sample.ParseRSAPublicKeyFromPEM tokenStr claims
    /\ index claims "iss" = IString iss
    /\ Sample.VerifyAudience claims "https://addon.example" = true
    /\ (index claims "qsh" = IString "H" \/ index claims "qsh" = IString "H").
Proof.
  intros r.
  apply (signed_install_forwarded_only_verified Sample.ParseUnverified
           Sample.Method_Verify Sample.Claims_Valid Sample.VerifyAudience
           Sample.ParseRSAPublicKeyFromPEM Sample.CreateQueryStringHash Sample.cdn_up
           Sample.path_Join Sample.now (Sample.the_addon true) r ∅
           (IString "https://host.example") (IString "tenantB")).
  - reflexivity.
  - eexists _, _. repeat split; reflexivity.
  - reflexivity.
  - vm_compute. reflexivity.
Defined.

Lemma serve_answers_witness :
  let run := Sample.authenticate false (Sample.get_with_query "good.A.forged") in
  response_status (trace run) = Some 401 \/ response_status (trace run) = Some 500.
Proof.
  intros run.
  apply (serve_answers Sample.ParseUnverified Sample.Method_Verify Sample.Claims_Valid
           Sample.SignedString Sample.CreateQueryStringHash
           {| addon := Sample.the_addon false; skipQsh := false |}
           (Sample.get_with_query "good.A.forged")); reflexivity.
Defined.

Lemma forwarded_only_authenticated_witness :
  let h := {| addon := Sample.the_addon false; skipQsh := false |} in
  let r := Sample.get_with_query "good.A.sig" in
  exists (tokenStr : string) (t : Token) (claims : gmap string iface)
         (clientKey : string) (tenant : Tenant) (signedToken : string),
    decoded Sample.ParseUnverified r tokenStr t claims clientKey
    /\ authenticated Sample.Method_Verify Sample.Claims_Valid Sample.SignedString
         Sample.CreateQueryStringHash h r tokenStr t claims clientKey tenant signedToken.
Proof.
  intros h r.
  apply (forwarded_only_authenticated Sample.ParseUnverified Sample.Method_Verify
           Sample.Claims_Valid Sample.SignedString Sample.CreateQueryStringHash h r).
  reflexivity.
Defined.

Lemma authenticated_account_id_witness :
  Sample.authenticate false (Sample.get_with_query "good.A.sig")
  = ([EvHeaderSet "X-acpt" "HS256:my-addon:tenantA::secretA";
      EvNext [("clientKey", "tenantA"); ("hostBaseUrl", "https://a.example");
              ("token", "HS256:my-addon:tenantA::secretA");
              ("userAccountId", "acct-1"); ("tenantContext", "{}")]], Some tt).
Proof.
  set (claims := {[ "iss" := IString "tenantA"; "qsh" := IString "H";
                    "sub" := IString "acct-1" ]} : gmap string iface).
  set (h := {| addon := Sample.the_addon false; skipQsh := false |}).
  set (r := Sample.get_with_query "good.A.sig").
  assert (Hd : decoded Sample.ParseUnverified r "good.A.sig"
                 (Sample.hs256_token claims) claims "tenantA")
    by (repeat split; discriminate).
  assert (Hq : qsh_reported h claims = false) by reflexivity.
  assert (Ha : authenticated Sample.Method_Verify Sample.Claims_Valid
                 Sample.SignedString Sample.CreateQueryStringHash h r "good.A.sig"
                 (Sample.hs256_token claims) claims "tenantA" Sample.tenantA
                 "HS256:my-addon:tenantA::secretA").
  { repeat split; try reflexivity; try discriminate.
    exists (KBytes "secretA"), SigningMethodHS256. repeat split. }
  apply (proj1 (proj2 (authenticated_account_id Sample.ParseUnverified
                         Sample.Method_Verify Sample.Claims_Valid Sample.SignedString
                         Sample.CreateQueryStringHash h r "good.A.sig"
                         (Sample.hs256_token claims) claims "tenantA" Sample.tenantA
                         "HS256:my-addon:tenantA::secretA" Hd Hq Ha)) "acct-1").
  reflexivity.
Defined.

Lemma token_middleware_skips_qsh_witness :
  forwarded
    (trace (TokenMiddleware_ServeHTTP Sample.ParseUnverified Sample.Method_Verify
              Sample.Claims_Valid Sample.SignedString Sample.CreateQueryStringHash
              (Sample.the_addon false) (Sample.get_with_query "noqsh.A.sig")))
  = true.
Proof.
  set (claims := {[ "iss" := IString "tenantA" ]} : gmap string iface).
  assert (Hd : decoded Sample.ParseUnverified (Sample.get_with_query "noqsh.A.sig")
                 "noqsh.A.sig" (Sample.hs256_token claims) claims "tenantA")
    by (repeat split; discriminate).
  assert (Hsec : SharedSecret Sample.tenantA <> "") by discriminate.
  apply (proj1 (proj2 (proj2
           (proj2 (token_middleware_skips_qsh Sample.ParseUnverified
                     Sample.Method_Verify Sample.Claims_Valid Sample.SignedString
                     Sample.CreateQueryStringHash (Sample.the_addon false)
                     (Sample.get_with_query "noqsh.A.sig"))
              "noqsh.A.sig" (Sample.hs256_token claims) claims "tenantA"
              Sample.tenantA (KBytes "secretA") SigningMethodHS256
              "HS256:my-addon:tenantA::secretA"
              Hd eq_refl Hsec eq_refl eq_refl eq_refl eq_refl eq_refl)))).
  left. reflexivity.
Defined.

Section InstallationFailures.

Variable ParseUnverified : string -> parsed.
Variable Method_Verify : SigningMethod -> string -> key -> bool.
Variable Claims_Valid : gmap string iface -> bool.
Variable VerifyAudience : gmap string iface -> string -> bool.
Variable ParseRSAPublicKeyFromPEM : string -> key + string.
Variable CreateQueryStringHash : Request -> bool -> string -> string.
Variable http_Get : string -> string -> HttpResult.
Variable path_Join : string -> string -> string.
Variable now : Z.

(** X20: a token whose header holds no kid entry, or one that is not a
    string or is the empty string, is refused with the missing key id error
    before any key is fetched: the fallback cache is left as it was. *)
Theorem decodeAsymmetricToken_requires_kid
    (tokenStr : string) (t : Token) (noVerify : bool) (c : gmap string Item) :
  (ParseUnverified tokenStr = ParseOk t
   \/ exists err : string, ParseUnverified tokenStr = ParseErr t err) ->
  (forall keyId : string, Header t !! "kid" = Some (IString keyId) -> keyId = "") ->
  decodeAsymmetricToken ParseUnverified Method_Verify Claims_Valid
    ParseRSAPublicKeyFromPEM http_Get path_Join now tokenStr noVerify c
  = (Some (inr "keyId is missing"), c).
Proof.
  intros Hp Hkid. unfold decodeAsymmetricToken, Parse.
  unfold mbind, K_bind, K_of, K_lift, mret, K_ret.
  destruct Hp as [->|[err ->]]; cbn;
    destruct (Header t !! "kid") as [[| | |keyId| |]|] eqn:Ek; cbn;
    try reflexivity;
    rewrite (Hkid _ eq_refl); reflexivity.
Qed.

(** X21: on a signed installation request with signed installs required, a
    failed asymmetric verification is answered 401 with the text of the
    error, and the wrapped handler is not invoked. *)
Theorem signed_install_rejected
    (a : Addon) (r : Request) (c c' : gmap string Item) (baseUrl clientKey : iface)
    (err : string) :
  Config_SignedInstall a = true ->
  install_payload r baseUrl (Some clientKey) ->
  snd (isJwtAsymmetric ParseUnverified Method_Verify Claims_Valid r) = Some true ->
  verifyAsymmetricJwtAndGetClaims ParseUnverified Method_Verify Claims_Valid
    VerifyAudience ParseRSAPublicKeyFromPEM CreateQueryStringHash http_Get
    path_Join now a r c = (Some (inr err), c') ->
  VerifyInstallationMiddleware_ServeHTTP ParseUnverified Method_Verify Claims_Valid
    VerifyAudience ParseRSAPublicKeyFromPEM CreateQueryStringHash http_Get
    path_Join now a r c = (SendError 401 err, c').
Proof.
  intros Hs (form & data & Hb & Hu & Hk) Hasym Hv.
  unfold VerifyInstallationMiddleware_ServeHTTP.
  rewrite Hb, Hu, Hk, Hs.
  destruct (isJwtAsymmetric _ _ _ r) as [tr o]. simpl in Hasym. subst o.
  unfold signedInstallMiddleware_ServeHTTP. now rewrite Hv.
Qed.

End InstallationFailures.

Section AuthenticationEarlyReport.

Variable ParseUnverified : string -> parsed.
Variable Method_Verify : SigningMethod -> string -> key -> bool.
Variable Claims_Valid : gmap string iface -> bool.
Variable SignedString : SigningMethod -> StandardClaims -> string -> string + string.
Variable CreateQueryStringHash : Request -> bool -> string -> string.

(** X22: when the qsh claim is the empty string on a route that enforces
    the hash, every later check passes and the sub claim is absent or a
    string, the run is: status 401 with the missing-hash text, then the
    X-acpt header set, then the wrapped handler invoked with the verified
    identity.  The caller reads status 401, and the X-acpt header, set after
    the status line, is not among the headers sent. *)
Theorem qsh_reported_then_forwarded
    (h : AuthenticationMiddleware) (r : Request) (tokenStr : string) (t : Token)
    (claims : gmap string iface) (clientKey : string) (tenant : Tenant)
    (signedToken accountID : string) :
  decoded ParseUnverified r tokenStr t claims clientKey ->
  index claims "qsh" = IString "" ->
  skipQsh h = false ->
  authenticated Method_Verify Claims_Valid SignedString CreateQueryStringHash
    h r tokenStr t claims clientKey tenant signedToken ->
  ((index claims "sub" = INil /\ accountID = "")
   \/ index claims "sub" = IString accountID) ->
  let run := AuthenticationMiddleware_ServeHTTP ParseUnverified Method_Verify
               Claims_Valid SignedString CreateQueryStringHash h r in
  run = ([EvWriteHeader 401; EvWrite MissingQsh; EvLog Error MissingQsh;
          EvHeaderSet "X-acpt" signedToken;
          EvNext [("clientKey", clientKey); ("hostBaseUrl", BaseURL tenant);
                  ("token", signedToken); ("userAccountId", accountID);
                  ("tenantContext", Context tenant)]], Some tt)
  /\ response_status (trace run) = Some 401
  /\ written (trace run) = [MissingQsh]
  /\ sent_headers (trace run) = []
  /\ forwarded (trace run) = true.
Proof.
  intros Hd Hqsh0 Hskip (Hs & Hsec & (k & m & Hk & Hm & Hv) & Hc & Hqsh & Hsign)
         Hsub run.
  assert (Hq : qsh_reported h claims = true)
    by (unfold qsh_reported; now rewrite Hqsh0, Hskip).
  subst run. rewrite (serve_decoded _ _ _ _ _ _ _ _ _ _ _ Hd), Hq, Hs.
  apply is_empty_false in Hsec. rewrite Hsec, Hk, Hm.
  cbn -[ValidateQshFromRequest sessionClaims]. rewrite Hc, Hv.
  cbn -[ValidateQshFromRequest sessionClaims]. rewrite Hqsh, Hsign.
  destruct Hsub as [[-> ->]| ->]; repeat split.
Qed.

End AuthenticationEarlyReport.

Lemma decodeAsymmetricToken_requires_kid_witness :
  decodeAsymmetricToken Sample.ParseUnverified Sample.Method_Verify Sample.Claims_Valid
    Sample.ParseRSAPublicKeyFromPEM Sample.cdn_up Sample.path_Join Sample.now
    "good.A.sig" false ∅
  = (Some (inr "keyId is missing"), ∅).
Proof.
  apply (decodeAsymmetricToken_requires_kid Sample.ParseUnverified
           Sample.Method_Verify Sample.Claims_Valid Sample.ParseRSAPublicKeyFromPEM
           Sample.cdn_up Sample.path_Join Sample.now "good.A.sig"
           (Sample.hs256_token {[ "iss" := IString "tenantA"; "qsh" := IString "H";
                                  "sub" := IString "acct-1" ]})).
  - left. reflexivity.
  - intros keyId H. vm_compute in H. discriminate H.
Defined.

Lemma signed_install_rejected_witness :
  let r := Sample.post "install.B.sig" "" ""
             {[ "baseUrl" := IString "https://host.example";
                "clientKey" := IString "tenantB" ]} in
  Sample.install Sample.cdn_unreachable true r ∅
  = (SendError 401 "dial tcp: i/o timeout", ∅).
Proof.
  intros r.
  apply (signed_install_rejected Sample.ParseUnverified Sample.Method_Verify
           Sample.Claims_Valid Sample.VerifyAudience Sample.ParseRSAPublicKeyFromPEM
           Sample.CreateQueryStringHash Sample.cdn_unreachable Sample.path_Join
           Sample.now (Sample.the_addon true) r ∅ ∅
           (IString "https://host.example") (IString "tenantB")).
  - reflexivity.
  - eexists _, _. repeat split; reflexivity.
  - reflexivity.
  - reflexivity.
Defined.

Lemma qsh_reported_then_forwarded_witness :
  let run := Sample.authenticate false (Sample.get_with_query "emptyqsh.A.sig") in
  response_status (trace run) = Some 401
  /\ written (trace run) = [MissingQsh]
  /\ sent_headers (trace run) = []
  /\ forwarded (trace run) = true.
Proof.
  set (claims := {[ "iss" := IString "tenantA"; "qsh" := IString "" ]}
         : gmap string iface).
  set (h := {| addon := Sample.the_addon false; skipQsh := false |}).
  set (r := Sample.get_with_query "emptyqsh.A.sig").
  assert (Hd : decoded Sample.ParseUnverified r "emptyqsh.A.sig"
                 (Sample.hs256_token claims) claims "tenantA")
    by (repeat split; discriminate).
  assert (Ha : authenticated Sample.Method_Verify Sample.Claims_Valid
                 Sample.SignedString Sample.CreateQueryStringHash h r "emptyqsh.A.sig"
                 (Sample.hs256_token claims) claims "tenantA" Sample.tenantA
                 "HS256:my-addon:tenantA::secretA").
  { repeat split; try reflexivity; try discriminate.
    exists (KBytes "secretA"), SigningMethodHS256. repeat split. }
  apply (qsh_reported_then_forwarded Sample.ParseUnverified Sample.Method_Verify
           Sample.Claims_Valid Sample.SignedString Sample.CreateQueryStringHash
           h r "emptyqsh.A.sig" (Sample.hs256_token claims) claims "tenantA"
           Sample.tenantA "HS256:my-addon:tenantA::secretA" "" Hd eq_refl eq_refl Ha).
  left. split; reflexivity.
Defined.

Lemma ExtractJwt_success_witness :
  ExtractJwt (Sample.post "" "" "JWT good.A.sig" ∅) = ("good.A.sig", true).
Proof.
  apply (proj2 (ExtractJwt_success (Sample.post "" "" "JWT good.A.sig" ∅) "good.A.sig")).
  split; [discriminate|]. right; right. repeat split.
Defined.

Lemma ValidateQshFromRequest_enforced_witness :
  ValidateQshFromRequest Sample.CreateQueryStringHash
    {[ "iss" := IString "tenantA"; "qsh" := IString "H" ]}
    (Sample.get_with_query "good.A.sig") (Sample.the_addon false) false = true.
Proof.
  apply (proj2 (ValidateQshFromRequest_enforced Sample.CreateQueryStringHash
                  {[ "iss" := IString "tenantA"; "qsh" := IString "H" ]}
                  (Sample.get_with_query "good.A.sig") (Sample.the_addon false))).
  right; left. reflexivity.
Defined.

Lemma keyFunc_accepts_witness :
  keyFunc "secretA" (Sample.hs256_token ∅) = inl (KBytes "secretA").
Proof.
  apply (proj2 (keyFunc_accepts "secretA" (Sample.hs256_token ∅) (KBytes "secretA"))).
  split; [reflexivity|]. exists SigningMethodHS256.
  split; [reflexivity|]. left. split; reflexivity.
Defined.
